(** * Ceterach: the lazily loaded [Revision] entity

    A shallow embedding of [ceterach/revision.py].  A [Revision] is a Python
    object whose attributes are filled in by [load_attributes] from one record
    of the query API; every property goes through the [decorate] wrapper, and
    [restore] and [rollback] mutate the remote page through the client handle.

    The client handle, the page and user objects and the helpers of
    [ceterach.utils] are collaborators: each interaction with them is recorded
    in a trace, and an environment [Env] answers it from the trace so far. *)

From stdpp Require Import gmap strings list fin_maps pretty.
From Stdlib Require Import ZArith.

Open Scope Z_scope.
Open Scope string_scope.
Open Scope list_scope.

(** ** Values *)

(** JSON-like data, as decoded from the API (no floats are involved). *)
#[warnings="-register-all"]
Inductive json : Type :=
| JNull
| JBool (b : bool)
| JInt (z : Z)
| JStr (s : string)
| JList (l : list json)
| JDict (d : gmap string json).

(** The identity of a client handle ([api] objects compare by identity). *)
Definition Api := nat.
Bind Scope nat_scope with Api.

(** Values an attribute of a [Revision] can hold: plain data, an opaque
    collaborator object (a Page, a User, a datetime), or another Revision. *)
#[warnings="-register-all"]
Inductive val : Type :=
| VJson (j : json)
| VObj (n : nat)
| VRev (r : Revision)
with Revision : Type :=
| mkRevision (api : Api) (revid : Z) (dict : gmap string val).

(** [__init__] stores exactly [_api] and [_revid]; everything else lives in
    the instance dictionary and is set by [__load]. *)
Definition _api (r : Revision) : Api := let '(mkRevision a _ _) := r in a.
Definition _revid (r : Revision) : Z := let '(mkRevision _ i _) := r in i.
Definition __dict__ (r : Revision) : gmap string val :=
  let '(mkRevision _ _ d) := r in d.

Definition Revision___init__ (api : Api) (revid : Z) : Revision :=
  mkRevision api revid ∅.

Definition VNone : val := VJson JNull.
Definition VBool (b : bool) : val := VJson (JBool b).
Definition VStr (s : string) : val := VJson (JStr s).
Definition VInt (z : Z) : val := VJson (JInt z).

(** ** Exceptions *)

Inductive exn : Type :=
| KeyError (key : string)
| IndexError
| TypeError
| StopIteration
| AttributeError (name : string)
| NonexistentRevisionError (msg : string)
| PermissionsError (msg : string)
| ExternalError (what : string).

(** ** Python operations on JSON data *)

(** Truth value testing. *)
Definition truthy (j : json) : bool :=
  match j with
  | JNull => false
  | JBool b => b
  | JInt z => negb (Z.eqb z 0)
  | JStr s => negb (String.eqb s "")
  | JList l => match l with [] => false | _ => true end
  | JDict d => negb (Nat.eqb (size d) 0)
  end.

(** [j[k]] for a string key [k]. *)
Definition getitem (j : json) (k : string) : exn + json :=
  match j with
  | JDict d => match d !! k with Some v => inr v | None => inl (KeyError k) end
  | _ => inl TypeError
  end.

(** [j[0]]. *)
Definition getitem0 (j : json) : exn + json :=
  match j with
  | JList l => match l with x :: _ => inr x | [] => inl IndexError end
  | JStr s =>
      match s with
      | String c _ => inr (JStr (String c ""))
      | EmptyString => inl IndexError
      end
  | JDict _ => inl (KeyError "0")
  | _ => inl TypeError
  end.

Definition is_str (k : string) (j : json) : bool :=
  match j with JStr s => String.eqb s k | _ => false end.

(** [k in j] for a string [k]. *)
Definition contains (k : string) (j : json) : exn + bool :=
  match j with
  | JDict d => inr (bool_decide (is_Some (d !! k)))
  | JList l => inr (existsb (is_str k) l)
  | JStr s => inr (bool_decide (is_Some (String.index 0 k s)))
  | _ => inl TypeError
  end.

(** Revision ids are integers ([revid -> int]; [bool] is an [int] in Python).
    A value of another JSON type is no revision id: the embedding stops
    with [TypeError] where Python would carry the ill-typed id along. *)
Definition as_revid (j : json) : exn + Z :=
  match j with
  | JInt z => inr z
  | JBool b => inr (if b then 1 else 0)
  | _ => inl TypeError
  end.

(** ** Collaborators *)

(** One interaction with a collaborator. *)
Inductive event : Type :=
| EIterNext (a : Api) (kwargs : gmap string json) (use_defaults : bool)
| ECall (a : Api) (params : gmap string val)
| EPage (a : Api) (ident : json)
| EUser (a : Api) (name : json)
| ETitle (page : val)
| EName (user : val)
| EEdit (page content : val) (summary : json) (minor bot force : bool).

(** The environment: what each collaborator answers, given everything that
    happened before.  [isostrptime] is the pure parser of [ceterach.utils];
    [isinstance_AttributeError] tells which exceptions an
    [except AttributeError] clause catches (the classes of
    [ceterach.exceptions] are declared elsewhere). *)
Record Env : Type := {
  api_iterator_next :
    list event → Api → gmap string json → bool → exn + json;
  api_call : list event → Api → gmap string val → exn + val;
  api_page : list event → Api → json → exn + val;
  api_user : list event → Api → json → exn + val;
  page_title : list event → val → exn + val;
  user_name : list event → val → exn + val;
  page_edit :
    list event → val → val → json → bool → bool → bool → exn + val;
  isostrptime : json → exn + val;
  isinstance_AttributeError : exn → bool
}.

Definition is_query (e : event) : bool :=
  match e with EIterNext _ _ _ => true | _ => false end.
Definition is_call (e : event) : bool :=
  match e with ECall _ _ => true | _ => false end.
Definition is_edit (e : event) : bool :=
  match e with EEdit _ _ _ _ _ _ => true | _ => false end.

(** Number of transport queries, respectively of mutating calls, in a trace. *)
Definition queries (t : list event) : nat := length (filter is_query t).
Definition calls (t : list event) : nat := length (filter is_call t).
Definition edits (t : list event) : nat := length (filter is_edit t).

(** ** The method monad: state (the object and the trace) and exceptions *)

Record world : Type := World { self : Revision; trace : list event }.

Definition M (A : Type) : Type := world → (exn + A) * world.

Definition ret {A} (a : A) : M A := fun w => (inr a, w).
Definition raise {A} (e : exn) : M A := fun w => (inl e, w).
Definition bind {A B} (m : M A) (k : A → M B) : M B :=
  fun w => match m w with
           | (inr a, w') => k a w'
           | (inl e, w') => (inl e, w')
           end.

Declare Scope meth_scope.
Delimit Scope meth_scope with meth.
Notation "x <- m ;; k" := (bind m (fun x => k))
  (at level 100, m at next level, right associativity) : meth_scope.
Notation "m ;;; k" := (bind m (fun _ => k))
  (at level 100, right associativity) : meth_scope.
Open Scope meth_scope.

(** A pure computation that may raise. *)
Definition lift {A} (r : exn + A) : M A :=
  match r with inr a => ret a | inl e => raise e end.

Definition get_self : M Revision := fun w => (inr (self w), w).

(** [self.name = v]. *)
Definition setattr (name : string) (v : val) : M unit :=
  fun w =>
    let r := self w in
    (inr tt,
     World (mkRevision (_api r) (_revid r) (<[name := v]> (__dict__ r)))
           (trace w)).

(** An interaction: the answer depends on the trace so far, and the event is
    appended to the trace whether it succeeds or raises. *)
Definition perform {A} (ev : event) (answer : list event → exn + A) : M A :=
  fun w => (answer (trace w), World (self w) (trace w ++ [ev])).

(** [try: m  except <caught>: h]. *)
Definition try_except {A} (m : M A) (caught : exn → bool) (h : exn → M A)
  : M A :=
  fun w => match m w with
           | (inl e, w') => if caught e then h e w' else (inl e, w')
           | r => r
           end.

(** Run a method of another object [o]; the trace is shared. *)
Definition on_object {A} (o : Revision) (m : M A) : M A :=
  fun w => let '(r, w') := m (World o (trace w)) in
           (r, World (self w) (trace w')).

(** ** The class [Revision] *)

Section Revision.

Context (E : Env).

(** Calls into the collaborators. *)
Definition iterator_next (a : Api) (kwargs : gmap string json)
    (use_defaults : bool) : M json :=
  perform (EIterNext a kwargs use_defaults)
          (fun t => api_iterator_next E t a kwargs use_defaults).
Definition call (a : Api) (params : gmap string val) : M val :=
  perform (ECall a params) (fun t => api_call E t a params).
Definition mk_page (a : Api) (ident : json) : M val :=
  perform (EPage a ident) (fun t => api_page E t a ident).
Definition mk_user (a : Api) (name : json) : M val :=
  perform (EUser a name) (fun t => api_user E t a name).
Definition title (p : val) : M val :=
  perform (ETitle p) (fun t => page_title E t p).
Definition name (u : val) : M val :=
  perform (EName u) (fun t => user_name E t u).
Definition edit (p content : val) (summary : json) (minor bot force : bool)
  : M val :=
  perform (EEdit p content summary minor bot force)
          (fun t => page_edit E t p content summary minor bot force).

Definition rvprop : json :=
  JList [JStr "ids"; JStr "flags"; JStr "timestamp"; JStr "user";
         JStr "comment"; JStr "content"].

(** The query parameters of [__load]. *)
Definition load_kwargs (revid : Z) : gmap string json :=
  <["revids" := JInt revid]>
    (<["prop" := JStr "revisions"]>
       (<["rvprop" := rvprop]>
          (<["rvtoken" := JStr "rollback"]> ∅))).

(** [Revision.__load(self, res)] (the name is mangled to [_Revision__load]
    by Python); an omitted or [None] response is [JNull]. *)
Definition Revision__load (res : json) : M unit :=
  s <- get_self ;;
  let kwargs := load_kwargs (_revid s) in
  res <- (if truthy res then ret res
          else iterator_next (_api s) kwargs false) ;;
  pageid <- lift (getitem res "pageid") ;;
  p <- mk_page (_api s) pageid ;;
  setattr "_page" p ;;;
  revisions <- lift (getitem res "revisions") ;;
  res <- lift (getitem0 revisions) ;;
  comment <- lift (getitem res "comment") ;;
  setattr "_summary" (VJson comment) ;;;
  ts <- lift (getitem res "timestamp") ;;
  t <- lift (isostrptime E ts) ;;
  setattr "_timestamp" t ;;;
  uname <- lift (getitem res "user") ;;
  u <- mk_user (_api s) uname ;;
  setattr "_user" u ;;;
  minor <- lift (contains "minor" res) ;;
  setattr "_is_minor" (VBool minor) ;;;
  match getitem res "rollbacktoken" with
  | inr tok => setattr "_rvtoken" (VJson tok)
  | inl (KeyError _) => ret tt
  | inl e => raise e
  end ;;;
  parentid <- lift (getitem res "parentid") ;;
  (if truthy parentid then
     parentid <- lift (getitem res "parentid") ;;
     i <- lift (as_revid parentid) ;;
     setattr "_prev_revision" (VRev (Revision___init__ (_api s) i))
   else setattr "_prev_revision" VNone) ;;;
  match getitem res "*" with
  | inr text =>
      setattr "_content" (VJson text) ;;;
      setattr "_is_deleted" (VBool false)
  | inl (KeyError _) => setattr "_is_deleted" (VBool true)
  | inl e => raise e
  end.

(** [Revision.load_attributes(self, res=None)]. *)
Definition load_attributes (res : json) : M unit := Revision__load res.

(** [getattr(self, name)] on the instance: [_revid] is set by [__init__],
    the other attributes are in the instance dictionary when they are set. *)
Definition getattr (r : Revision) (name : string) : option val :=
  if String.eqb name "_revid" then Some (VInt (_revid r))
  else __dict__ r !! name.

(** Modelled from the spec: [ceterach.utils.blah_decorate], which is not part
    of [revision.py].  The accessor contract of the specification: if the
    backing field is cached, return it with no I/O; otherwise invoke the
    entity's load (no arguments) and re-check; return the field if it is
    present then, and otherwise fail with the error [err] built from the
    message formatted with the identity attribute.  [meth] is the name of
    the backing field the wrapped method returns. *)
Definition blah_decorate (load : json → M unit) (meth : string)
    (msg : Z → string) (err : string → exn) : M val :=
  s <- get_self ;;
  match getattr s meth with
  | Some v => ret v
  | None =>
      load JNull ;;;
      s <- get_self ;;
      match getattr s meth with
      | Some v => ret v
      | None => raise (err (msg (_revid s)))
      end
  end.

(** ["Revision {0!r} does not exist".format(getattr(self, 'revid'))]: the
    identity attribute [decorate] names is the property [revid], whose
    backing field [_revid] is always set. *)
Definition nonexistent_msg (revid : Z) : string :=
  "Revision " +:+ pretty revid +:+ " does not exist".

Definition decorate (meth : string) : M val :=
  blah_decorate load_attributes meth nonexistent_msg NonexistentRevisionError.

(** The properties. *)
Definition revid : M val := decorate "_revid".
Definition rvtoken : M val := decorate "_rvtoken".
Definition page : M val := decorate "_page".
Definition summary : M val := decorate "_summary".
Definition timestamp : M val := decorate "_timestamp".
Definition user : M val := decorate "_user".
Definition is_minor : M val := decorate "_is_minor".
Definition content : M val := decorate "_content".

(** [Revision.restore(self, summary, minor, bot, force)]. *)
Definition restore (summary : json) (minor bot force : bool) : M val :=
  p <- page ;;
  c <- content ;;
  edit p c summary minor bot force.

Definition no_rollback_permission : string :=
  "You do not have the rollback permission".

(** [Revision.rollback(self, summary, bot)].  The dictionary display
    evaluates [self.page.title], [self.user.name] and [self.rvtoken] in
    that order, before the [try] statement is entered. *)
Definition rollback (summary : json) (bot : bool) : M val :=
  p <- page ;;
  ptitle <- title p ;;
  u <- user ;;
  uname <- name u ;;
  tok <- rvtoken ;;
  let params : gmap string val :=
    <["action" := VStr "rollback"]>
      (<["token" := tok]> (<["user" := uname]> (<["title" := ptitle]> ∅))) in
  params <- try_except
              (tok <- rvtoken ;; ret (<["token" := tok]> params))
              (isinstance_AttributeError E)
              (fun _ => raise (PermissionsError no_rollback_permission)) ;;
  let params :=
    match summary with
    | JNull => params
    | _ => <["summary" := VJson summary]> params
    end in
  let params := if bot then <["markbot" := VInt 1]> params else params in
  s <- get_self ;;
  call (_api s) params.

(** Python's [==] on the two values [__eq__] compares: revision ids. *)
Definition val_eqb (a b : val) : bool :=
  match a, b with
  | VJson (JInt x), VJson (JInt y) => Z.eqb x y
  | _, _ => false
  end.

(** [Revision.__eq__(self, other)].  Of the values of this embedding only a
    Revision has a [revid] attribute; for any other [other] the second
    [getattr] yields [None], which no revision id equals, so the
    conjunction is [False] whatever the first comparison gives. *)
Definition Revision___eq__ (other : val) : M bool :=
  s <- get_self ;;
  match other with
  | VRev o =>
      if bool_decide (_api o = _api s) then
        i <- on_object o revid ;;
        j <- revid ;;
        ret (val_eqb i j)
      else ret false
  | _ => ret false
  end.

(** [Revision.__ne__(self, other)]. *)
Definition Revision___ne__ (other : val) : M bool :=
  s <- get_self ;;
  match other with
  | VRev o =>
      if bool_decide (_api o ≠ _api s) then ret true
      else
        i <- on_object o revid ;;
        j <- revid ;;
        ret (negb (val_eqb i j))
  | _ => ret true
  end.

End Revision.

(** ** A mock transport, for concrete runs *)

(** Every query yields the record [queried] (or nothing at all), every
    mutating call and page edit answers [reply]; the page is titled "Foo"
    and the user is named "Bar". *)
Definition mock (queried : option json) (reply : val) : Env := {|
  api_iterator_next := fun _ _ _ _ =>
    match queried with Some r => inr r | None => inl StopIteration end;
  api_call := fun _ _ _ => inr reply;
  api_page := fun _ _ _ => inr (VObj 1);
  api_user := fun _ _ _ => inr (VObj 2);
  page_title := fun _ _ => inr (VStr "Foo");
  user_name := fun _ _ => inr (VStr "Bar");
  page_edit := fun _ _ _ _ _ _ _ => inr reply;
  isostrptime := fun j =>
    match j with JStr _ => inr (VObj 3) | _ => inl TypeError end;
  isinstance_AttributeError := fun e =>
    match e with AttributeError _ => true | _ => false end
|}.

(** A revision record with the mandatory keys, and optional token and text. *)
Definition revision_record (parentid : json) (token text : option json)
  : gmap string json :=
  let d : gmap string json :=
    <["comment" := JStr "fix typo"]>
      (<["timestamp" := JStr "2013-05-01T12:00:00Z"]>
         (<["user" := JStr "Bar"]> (<["parentid" := parentid]> ∅))) in
  let d :=
    match token with Some t => <["rollbacktoken" := t]> d | None => d end in
  match text with Some t => <["*" := t]> d | None => d end.

Definition response (rev : gmap string json) : json :=
  JDict (<["pageid" := JInt 12]> (<["revisions" := JList [JDict rev]]> ∅)).

Definition fresh (api : Api) (revid : Z) : world :=
  World (Revision___init__ api revid) [].

(** ** What a load decodes *)

(** The record [__load] works on: the supplied response when it is truthy,
    otherwise the first record of the query ([res or next(...)]). *)
Definition decoded (E : Env) (res : json) (w : world) : exn + json :=
  if truthy res then inr res
  else api_iterator_next E (trace w) (_api (self w))
         (load_kwargs (_revid (self w))) false.

(** The query a load issues: none when a truthy response is supplied. *)
Definition load_query (res : json) (w : world) : list event :=
  if truthy res then []
  else [EIterNext (_api (self w)) (load_kwargs (_revid (self w))) false].

(** The first revision record of a response, [res['revisions'][0]]. *)
Definition first_revision (resp : json) : exn + json :=
  match getitem resp "revisions" with
  | inr revs => getitem0 revs
  | inl e => inl e
  end.

(** The value stored in [_prev_revision] for a given [parentid]. *)
Definition prev_of (a : Api) (parentid : json) : exn + val :=
  if truthy parentid then
    match as_revid parentid with
    | inr i => inr (VRev (Revision___init__ a i))
    | inl e => inl e
    end
  else inr VNone.

Definition set_opt (name : string) (o : exn + json) (d : gmap string val)
  : gmap string val :=
  match o with inr v => <[name := VJson v]> d | inl _ => d end.

Definition absent (o : exn + json) : bool :=
  match o with inr _ => false | inl _ => true end.

(** The instance dictionary after a successful load of the record [rev]. *)
Definition loaded_dict (p : val) (comment : json) (t u : val) (minor : bool)
    (prev : val) (rev : json) (d : gmap string val) : gmap string val :=
  <["_is_deleted" := VBool (absent (getitem rev "*"))]>
    (set_opt "_content" (getitem rev "*")
       (<["_prev_revision" := prev]>
          (set_opt "_rvtoken" (getitem rev "rollbacktoken")
             (<["_is_minor" := VBool minor]>
                (<["_user" := u]>
                   (<["_timestamp" := t]>
                      (<["_summary" := VJson comment]>
                         (<["_page" := p]> d)))))))).

(** Reading several properties in a row, by the names of their backing
    fields. *)
Fixpoint accesses (E : Env) (names : list string) : M (list val) :=
  match names with
  | [] => ret []
  | n :: rest =>
      v <- decorate E n ;;
      vs <- accesses E rest ;;
      ret (v :: vs)
  end.

(** The fields every successful load assigns. *)
Definition loaded_fields : list string :=
  ["_page"; "_summary"; "_timestamp"; "_user"; "_is_minor";
   "_prev_revision"; "_is_deleted"].

(** Events that are neither a query, nor a mutating call, nor a page edit. *)
Definition quiet (evs : list event) : Prop :=
  queries evs = 0%nat ∧ calls evs = 0%nat ∧ edits evs = 0%nat.

(** The assignments [vs], performed from left to right on [d]. *)
Definition assign (vs : list (string * val)) (d : gmap string val)
  : gmap string val :=
  foldl (λ m kv, <[kv.1 := kv.2]> m) d vs.

(** The order in which [__load] assigns its first fields. *)
Definition load_order : list string :=
  ["_page"; "_summary"; "_timestamp"; "_user"; "_is_minor"; "_rvtoken"].

(** The parameters [rollback] sends: the dictionary display, the second
    assignment of the token, then the optional keys. *)
Definition rollback_params (ptitle uname tok : val) (summary : json)
    (bot : bool) : gmap string val :=
  let params : gmap string val :=
    <["token" := tok]>
      (<["action" := VStr "rollback"]>
         (<["token" := tok]>
            (<["user" := uname]> (<["title" := ptitle]> ∅)))) in
  let params :=
    match summary with
    | JNull => params
    | _ => <["summary" := VJson summary]> params
    end in
  if bot then <["markbot" := VInt 1]> params else params.

(** [rollback] with the [try] statement taken out, for comparison. *)
Definition rollback_without_try (E : Env) (summary : json) (bot : bool)
  : M val :=
  p <- page E ;;
  ptitle <- title E p ;;
  u <- user E ;;
  uname <- name E u ;;
  tok <- rvtoken E ;;
  let params : gmap string val :=
    <["action" := VStr "rollback"]>
      (<["token" := tok]> (<["user" := uname]> (<["title" := ptitle]> ∅))) in
  let params := <["token" := tok]> params in
  let params :=
    match summary with
    | JNull => params
    | _ => <["summary" := VJson summary]> params
    end in
  let params := if bot then <["markbot" := VInt 1]> params else params in
  s <- get_self ;;
  call E (_api s) params.

(** ** Concrete scenarios *)

(** Revision 7 of page 12, by "Bar", with parent 4. *)
Definition record_with_text : json :=
  response (revision_record (JInt 4) (Some (JStr "TOK")) (Some (JStr "text"))).

(** The same revision as seen without rollback rights. *)
Definition record_without_token : json :=
  response (revision_record (JInt 4) None (Some (JStr "text"))).

(** The same revision with its text suppressed. *)
Definition record_deleted : json :=
  response (revision_record (JInt 4) None None).

(** The same revision with its author suppressed: the API then sends
    [userhidden] and no [user]. *)
Definition record_user_hidden : json :=
  response (<["userhidden" := JStr ""]>
              (delete "user"
                 (revision_record (JInt 4) None (Some (JStr "text"))))).

(** The answer to a query that matches no revision. *)
Definition record_no_revisions : json :=
  JDict (<["pageid" := JInt 12]> (<["revisions" := JList []]> ∅)).

Definition transport_with_text : Env :=
  mock (Some record_with_text) (VStr "ok").
Definition transport_without_token : Env :=
  mock (Some record_without_token) (VStr "ok").
Definition transport_deleted : Env := mock (Some record_deleted) (VStr "ok").
Definition transport_user_hidden : Env := mock (Some record_user_hidden) VNone.
Definition transport_no_revisions : Env :=
  mock (Some record_no_revisions) VNone.
Definition transport_empty : Env := mock None VNone.

(** Revision 7, unloaded; loaded over each transport; and reloaded from a
    record without text after a load with text. *)
Definition rev7 : world := fresh 0 7.
Definition rev7_loaded : world :=
  snd (load_attributes transport_with_text JNull rev7).
Definition rev7_without_token : world :=
  snd (load_attributes transport_without_token JNull rev7).
Definition rev7_deleted : world :=
  snd (load_attributes transport_deleted JNull rev7).
Definition rev7_user_hidden : world :=
  snd (load_attributes transport_user_hidden JNull rev7).
Definition rev7_reloaded : world :=
  snd (load_attributes transport_deleted record_deleted
         (snd (load_attributes transport_deleted record_with_text rev7))).
Definition rev999 : world := fresh 0 999.

(** ** The rest of the class *)

(** [Revision.__repr__(self)], for an instance of the class itself
    ([type(self).__name__] is "Revision"); [repr_api] is [repr] on client
    handles, and the id is read through the property [revid]. *)
Definition Revision___repr__ (E : Env) (repr_api : Api → string)
  : M string :=
  s <- get_self ;;
  i <- revid E ;;
  match i with
  | VJson (JInt z) =>
      ret ("Revision(api=" +:+ repr_api (_api s) +:+ ", revid=" +:+
           pretty z +:+ ")")
  | _ => raise TypeError
  end.

(** The keys [rollback] sends. *)
Definition rollback_keys (summary : json) (bot : bool) : gset string :=
  {[ "title"; "user"; "token"; "action" ]} ∪
  (match summary with JNull => ∅ | _ => {[ "summary" ]} end) ∪
  (if bot then {[ "markbot" ]} else ∅).

(** The fields a load computes from the record alone. *)
Definition data_fields : list string :=
  ["_summary"; "_timestamp"; "_is_minor"; "_rvtoken"; "_prev_revision";
   "_content"; "_is_deleted"].

(** Revision 7 as a minor edit: the API sends the key "minor" with an empty
    string. *)
Definition record_minor_flag : json :=
  response (<["minor" := JStr ""]>
              (revision_record (JInt 4) None (Some (JStr "text")))).
Definition transport_minor_flag : Env :=
  mock (Some record_minor_flag) (VStr "ok").

(** A mapping that is no page record. *)
Definition response_without_pageid : json :=
  JDict (<["revisions" := JList []]> ∅).

(** A [repr] for client handles. *)
Definition repr_handle (a : Api) : string := "<api " +:+ pretty a +:+ ">".

(** * Properties *)

(** ** Symbolic execution of [__load] *)

Ltac run :=
  cbv beta iota zeta delta
    [load_attributes Revision__load bind lift ret raise get_self setattr
     perform iterator_next mk_page mk_user self trace fst snd
     _api _revid __dict__ getitem].

(** One step: case analysis on the next thing the load depends on; a branch
    that contradicts the hypothesis on the outcome is closed at once. *)
Ltac step :=
  match goal with
  | |- context [truthy ?j] => destruct (truthy j) eqn:?
  | |- context [match ?j with JDict _ => _ | _ => _ end] =>
      is_var j; destruct j
  | |- context [getitem0 ?j] => destruct (getitem0 j) as [?|?] eqn:?
  | |- context [match @lookup string json _ _ ?k ?d with
                | Some _ => _ | None => _ end] => destruct (d !! k) eqn:?
  | |- context [contains ?k ?j] => destruct (contains k j) as [?|?] eqn:?
  | |- context [as_revid ?j] => destruct (as_revid j) as [?|?] eqn:?
  | |- context [isostrptime ?E ?j] =>
      destruct (isostrptime E j) as [?|?] eqn:?
  | |- context [api_iterator_next ?E ?t ?a ?k ?b] =>
      destruct (api_iterator_next E t a k b) as [?|?] eqn:?
  | |- context [api_page ?E ?t ?a ?k] =>
      destruct (api_page E t a k) as [?|?] eqn:?
  | |- context [api_user ?E ?t ?a ?k] =>
      destruct (api_user E t a k) as [?|?] eqn:?
  end; run; try solve [intros ?; discriminate].

Ltac use_eqs :=
  cbn [getitem];
  repeat match goal with
         | H : ?l = _ |- context [?l] => rewrite H
         end;
  cbn [absent set_opt].

(** Lookups in a chain of insertions with literal keys. *)
Lemma lookup_insert_neb {A} (m : gmap string A) i j x :
  String.eqb i j = false → <[i:=x]> m !! j = m !! j.
Proof. intros H. apply lookup_insert_ne. by apply String.eqb_neq. Qed.

Ltac look :=
  repeat first [ rewrite lookup_insert_eq
               | rewrite lookup_insert_neb by reflexivity
               | rewrite lookup_empty ].

(** A successful load, read backwards: every step succeeded, and the final
    object and trace are determined by the decoded record. *)
Lemma load_ok E res w :
  fst (load_attributes E res w) = inr tt →
  ∃ resp pageid p revs rev comment ts t uname u minor parentid prev,
    decoded E res w = inr resp ∧
    getitem resp "pageid" = inr pageid ∧
    api_page E (trace w ++ load_query res w) (_api (self w)) pageid = inr p ∧
    getitem resp "revisions" = inr revs ∧
    getitem0 revs = inr rev ∧
    getitem rev "comment" = inr comment ∧
    getitem rev "timestamp" = inr ts ∧
    isostrptime E ts = inr t ∧
    getitem rev "user" = inr uname ∧
    api_user E (trace w ++ load_query res w ++ [EPage (_api (self w)) pageid])
      (_api (self w)) uname = inr u ∧
    contains "minor" rev = inr minor ∧
    getitem rev "parentid" = inr parentid ∧
    prev_of (_api (self w)) parentid = inr prev ∧
    snd (load_attributes E res w) =
      World (mkRevision (_api (self w)) (_revid (self w))
               (loaded_dict p comment t u minor prev rev (__dict__ (self w))))
            (trace w ++ load_query res w ++
               [EPage (_api (self w)) pageid; EUser (_api (self w)) uname]).
Proof.
  destruct w as [[a i d] t]. unfold decoded, load_query, prev_of, loaded_dict.
  run. repeat step.
  all: intros _; rewrite <- ?app_assoc in *; cbn [app] in *;
    rewrite ?app_nil_r.
  all: repeat eexists; try eassumption.
  all: use_eqs; try reflexivity.
  all: use_eqs; reflexivity.
Qed.

Ltac chain m :=
  lazymatch m with
  | <[?k := ?v]> ?m' => let l := chain m' in constr:(l ++ [(k, v)])
  | _ => constr:(@nil (string * val))
  end.

(** Any load, successful or not: identity and client handle are kept, the
    trace grows by the query (if any) and by quiet events, and a failed load
    has performed an initial segment of the assignments. *)
Lemma load_any E res w :
  ∃ d' evs,
    snd (load_attributes E res w) =
      World (mkRevision (_api (self w)) (_revid (self w)) d')
            (trace w ++ load_query res w ++ evs) ∧
    quiet evs ∧
    (∀ e, fst (load_attributes E res w) = inl e →
       ∃ vs, d' = assign vs (__dict__ (self w)) ∧
             map fst vs `prefix_of` load_order).
Proof.
  destruct w as [[a i d] t]. unfold load_query.
  run. repeat step.
  all: rewrite <- ?app_assoc; cbn [app].
  all: first [ do 2 eexists; split; [reflexivity|]
             | exists d, []; split; [by rewrite app_nil_r|] ].
  all: split; [done|].
  all: intros ? Hf; try discriminate Hf; clear Hf.
  all: match goal with
       | |- ∃ vs, ?m = _ ∧ _ => let l := chain m in exists l
       end.
  all: split; [reflexivity | eexists; reflexivity].
Qed.

(** ** Counting events *)

Lemma queries_app t1 t2 : queries (t1 ++ t2) = (queries t1 + queries t2)%nat.
Proof. unfold queries. by rewrite filter_app, length_app. Qed.
Lemma calls_app t1 t2 : calls (t1 ++ t2) = (calls t1 + calls t2)%nat.
Proof. unfold calls. by rewrite filter_app, length_app. Qed.
Lemma edits_app t1 t2 : edits (t1 ++ t2) = (edits t1 + edits t2)%nat.
Proof. unfold edits. by rewrite filter_app, length_app. Qed.

Lemma load_query_quiet res w :
  calls (load_query res w) = 0%nat ∧ edits (load_query res w) = 0%nat ∧
  queries (load_query res w) = if truthy res then 0%nat else 1%nat.
Proof. unfold load_query. by destruct (truthy res). Qed.

(** ** The accessor wrapper *)

Lemma decorate_cached E n w v :
  getattr (self w) n = Some v → decorate E n w = (inr v, w).
Proof.
  intros H. unfold decorate, blah_decorate, bind, get_self, ret. by rewrite H.
Qed.

Lemma decorate_uncached E n w :
  getattr (self w) n = None →
  decorate E n w =
    match load_attributes E JNull w with
    | (inr _, w') =>
        match getattr (self w') n with
        | Some v => (inr v, w')
        | None =>
            (inl (NonexistentRevisionError
                    (nonexistent_msg (_revid (self w')))), w')
        end
    | (inl e, w') => (inl e, w')
    end.
Proof.
  intros H. unfold decorate, blah_decorate, bind, get_self, ret, raise.
  rewrite H. destruct (load_attributes E JNull w) as [[e|[]] w']; [done|].
  by destruct (getattr (self w') n).
Qed.

Lemma decorate_ok E n w v :
  fst (decorate E n w) = inr v →
  getattr (self (snd (decorate E n w))) n = Some v.
Proof.
  destruct (getattr (self w) n) as [v'|] eqn:Hc.
  - rewrite (decorate_cached _ _ _ _ Hc). simpl. by intros [= <-].
  - rewrite (decorate_uncached _ _ _ Hc).
    destruct (load_attributes E JNull w) as [[e|[]] w']; [done|].
    destruct (getattr (self w') n) eqn:Hn; simpl; [|done].
    by intros [= <-].
Qed.

(** What an access does to the world: at most one query, no mutating call,
    no page edit; the identity of the object is kept. *)
Lemma decorate_events E n w :
  ∃ d' evs,
    snd (decorate E n w) =
      World (mkRevision (_api (self w)) (_revid (self w)) d')
            (trace w ++ evs) ∧
    (queries evs ≤ 1)%nat ∧ calls evs = 0%nat ∧ edits evs = 0%nat.
Proof.
  destruct (getattr (self w) n) as [v'|] eqn:Hc.
  - rewrite (decorate_cached _ _ _ _ Hc). exists (__dict__ (self w)), [].
    destruct w as [[a i d] t]. simpl. rewrite app_nil_r.
    repeat split; try done. unfold queries; simpl; lia.
  - rewrite (decorate_uncached _ _ _ Hc).
    destruct (load_any E JNull w) as (d' & evs & Hw & (Hq & Hc' & He) & _).
    exists d', (load_query JNull w ++ evs).
    split.
    + destruct (load_attributes E JNull w) as [[e|[]] w']; simpl in *;
        [done|]. by destruct (getattr (self w') n).
    + rewrite queries_app, calls_app, edits_app, Hq, Hc', He. simpl. lia.
Qed.

(** ** Equality *)

(** C5: two Revision objects are equal if and only if they share the same
    client handle and the same revision id, whatever either instance
    dictionary holds (loaded or not); [__ne__] is the negation, and the
    comparison neither queries the transport nor changes the object. *)
Theorem eq_iff_same_api_and_revid E (a b : Revision) (t : list event) :
  ∃ r, Revision___eq__ E (VRev b) (World a t) = (inr r, World a t) ∧
       Revision___ne__ E (VRev b) (World a t) = (inr (negb r), World a t) ∧
       (r = true ↔ _api a = _api b ∧ _revid a = _revid b).
Proof.
  exists (bool_decide (_api b = _api a) && Z.eqb (_revid b) (_revid a)).
  pose proof (decorate_cached E "_revid" (World b t) (VInt (_revid b))
                eq_refl) as Hb.
  pose proof (decorate_cached E "_revid" (World a t) (VInt (_revid a))
                eq_refl) as Ha.
  cbv beta iota delta [Revision___eq__ Revision___ne__ bind get_self on_object
                       ret revid self trace].
  split; [|split; [|split]].
  - case_bool_decide; [|done]. by rewrite Hb, Ha.
  - destruct (decide (_api b = _api a)) as [Heq|Hne].
    + rewrite (bool_decide_eq_false_2 (_api b ≠ _api a)) by auto.
      rewrite (bool_decide_eq_true_2 (_api b = _api a)) by done.
      cbv beta iota. by rewrite Hb, Ha.
    + rewrite (bool_decide_eq_true_2 (_api b ≠ _api a)) by done.
      by rewrite (bool_decide_eq_false_2 (_api b = _api a)).
  - intros [H1%bool_decide_eq_true H2%Z.eqb_eq]%andb_true_iff. done.
  - intros [-> ->]. rewrite bool_decide_eq_true_2 by done. simpl.
    apply Z.eqb_refl.
Qed.

(** ** Loading *)

Lemma load_query_count E res w :
  queries (trace (snd (load_attributes E res w))) =
    (queries (trace w) + (if truthy res then 0 else 1))%nat.
Proof.
  destruct (load_any E res w) as (d' & evs & -> & (Hq & _) & _). simpl.
  rewrite !queries_app, Hq. destruct (load_query_quiet res w) as (_ & _ & ->).
  lia.
Qed.

(** C10: a supplied response that is falsy (an empty mapping, for instance)
    is ignored: the load behaves exactly as if no response had been given
    and issues the transport query; only a truthy response suppresses the
    query. *)
Theorem falsy_response_is_ignored E res w :
  load_attributes E res w =
    load_attributes E (if truthy res then res else JNull) w ∧
  queries (trace (snd (load_attributes E res w))) =
    (queries (trace w) + (if truthy res then 0 else 1))%nat.
Proof.
  split.
  - destruct (truthy res) eqn:Hr; [done|].
    unfold load_attributes, Revision__load, bind, get_self. by rewrite Hr.
  - apply load_query_count.
Qed.

(** ** What a successful load leaves in the instance dictionary *)

Lemma loaded_dict_lookup p c t u m prev rev d :
  let d' := loaded_dict p c t u m prev rev d in
  d' !! "_page" = Some p ∧
  d' !! "_summary" = Some (VJson c) ∧
  d' !! "_timestamp" = Some t ∧
  d' !! "_user" = Some u ∧
  d' !! "_is_minor" = Some (VBool m) ∧
  d' !! "_prev_revision" = Some prev ∧
  d' !! "_is_deleted" = Some (VBool (absent (getitem rev "*"))) ∧
  d' !! "_content" =
    match getitem rev "*" with
    | inr text => Some (VJson text)
    | inl _ => d !! "_content"
    end ∧
  d' !! "_rvtoken" =
    match getitem rev "rollbacktoken" with
    | inr tok => Some (VJson tok)
    | inl _ => d !! "_rvtoken"
    end.
Proof.
  unfold loaded_dict, set_opt.
  destruct (getitem rev "*"), (getitem rev "rollbacktoken"); cbn zeta;
    look; done.
Qed.

Lemma getattr_dict r n :
  String.eqb n "_revid" = false → getattr r n = __dict__ r !! n.
Proof. unfold getattr. by intros ->. Qed.

Lemma loaded_fields_cached E res w n :
  fst (load_attributes E res w) = inr tt →
  n ∈ loaded_fields →
  is_Some (getattr (self (snd (load_attributes E res w))) n).
Proof.
  intros Hok Hn.
  destruct (load_ok E res w Hok)
    as (resp & pageid & p & revs & rev & c & ts & t & un & u & m & pid & prev
        & _ & _ & _ & _ & _ & _ & _ & _ & _ & _ & _ & _ & _ & ->).
  destruct (loaded_dict_lookup p c t u m prev rev (__dict__ (self w)))
    as (H1 & H2 & H3 & H4 & H5 & H6 & H7 & _).
  unfold loaded_fields in Hn. cbn [self].
  repeat (apply elem_of_cons in Hn as [-> | Hn];
          [rewrite getattr_dict by reflexivity; cbn [__dict__]; eauto|]).
  by apply elem_of_nil in Hn.
Qed.

Lemma accesses_cached E names w :
  Forall (λ n, is_Some (getattr (self w) n)) names →
  ∃ vs, accesses E names w = (inr vs, w) ∧ length vs = length names.
Proof.
  induction 1 as [|n names [v Hv] _ (vs & IH & Hlen)].
  - by exists [].
  - exists (v :: vs). simpl. unfold bind.
    rewrite (decorate_cached E n w v Hv), IH. simpl. auto.
Qed.

(** C8, as the code has it: a load invoked without a supplied response
    issues exactly one transport query, whether or not it succeeds; after a
    successful load, any sequence of accesses to fields the load has set (the
    seven fields every load sets, or any other field found cached) returns
    their values and leaves the world as it is: no further query, no other
    event.  A field the load has left unset (the content of a suppressed
    revision, a withheld rollback token) is not covered: each access to it
    issues exactly one more query, so the count does not stay at 1. *)
Theorem one_query_then_cached E w :
  queries (trace (snd (load_attributes E JNull w))) = S (queries (trace w)) ∧
  (fst (load_attributes E JNull w) = inr tt →
   ∀ names,
     let w1 := snd (load_attributes E JNull w) in
     Forall (λ n, n ∈ loaded_fields ∨ is_Some (getattr (self w1) n))
       names →
     ∃ vs, accesses E names w1 = (inr vs, w1) ∧ length vs = length names) ∧
  (∀ n,
     let w1 := snd (load_attributes E JNull w) in
     getattr (self w1) n = None →
     queries (trace (snd (decorate E n w1))) = S (queries (trace w1))).
Proof.
  split; [|split].
  - rewrite load_query_count. simpl. lia.
  - intros Hok names w1 Hnames. apply accesses_cached.
    eapply Forall_impl; [exact Hnames|]. intros n [Hn|Hn]; [|done].
    by apply loaded_fields_cached.
  - intros n w1 Hn. rewrite (decorate_uncached E n w1 Hn).
    pose proof (load_query_count E JNull w1) as Hq.
    destruct (load_attributes E JNull w1) as [[e|[]] w2]; cbn [snd] in *.
    + rewrite Hq. simpl. lia.
    + destruct (getattr (self w2) n); cbn [snd]; rewrite Hq; simpl; lia.
Qed.

(** C8 as stated fails for the fields a successful load leaves unset:
    revision 7, loaded successfully from a record without "*", has issued
    one query; a first read of [content] brings the count to 2, a second
    read to 3.  Likewise a read of [rvtoken] after a successful load from a
    record without "rollbacktoken" brings the count to 2. *)
Lemma reads_of_absent_fields_query_again :
  fst (load_attributes transport_deleted JNull rev7) = inr tt ∧
  queries (trace rev7_deleted) = 1%nat ∧
  queries (trace (snd (content transport_deleted rev7_deleted))) = 2%nat ∧
  queries (trace (snd (content transport_deleted
                         (snd (content transport_deleted rev7_deleted))))) =
    3%nat ∧
  fst (load_attributes transport_without_token JNull rev7) = inr tt ∧
  queries (trace rev7_without_token) = 1%nat ∧
  queries (trace (snd (rvtoken transport_without_token
                         rev7_without_token))) = 2%nat.
Proof. vm_compute. split_and!; done. Qed.


(** ** Sequencing *)

Lemma bind_ok {A B} (m : M A) (k : A → M B) w a w' :
  m w = (inr a, w') → bind m k w = k a w'.
Proof. unfold bind. by intros ->. Qed.

Lemma bind_err {A B} (m : M A) (k : A → M B) w e w' :
  m w = (inl e, w') → bind m k w = (inl e, w').
Proof. unfold bind. by intros ->. Qed.

Lemma bind_cong {A B} (m : M A) (k1 k2 : A → M B) w :
  (∀ a w', m w = (inr a, w') → k1 a w' = k2 a w') →
  bind m k1 w = bind m k2 w.
Proof. unfold bind. destruct (m w) as [[e|a] w']; auto. Qed.

(** ** Rollback *)

Lemma rollback_params_lookup ptitle uname tok summary bot :
  let params := rollback_params ptitle uname tok summary bot in
  params !! "title" = Some ptitle ∧
  params !! "user" = Some uname ∧
  params !! "token" = Some tok ∧
  params !! "action" = Some (VStr "rollback") ∧
  params !! "summary" =
    match summary with JNull => None | _ => Some (VJson summary) end ∧
  params !! "markbot" = (if bot then Some (VInt 1) else None).
Proof.
  unfold rollback_params. destruct summary, bot; cbn zeta; look; done.
Qed.

(** C2: for a Revision whose page, user and rollback token are cached, and
    whose page and user answer with a title and a name, [rollback] issues
    exactly one mutating call, after reading the title and the name and
    nothing else; its parameters hold the title under "title", the name
    under "user", the token under "token" and "rollback" under "action";
    "summary" is present exactly when the summary is not [None] (the empty
    string included), holding that summary; "markbot" is 1 exactly when
    [bot] is true; and the outcome of the call, value or exception, is
    returned as it is. *)
Theorem rollback_request E w p u tok ptitle uname summary bot :
  __dict__ (self w) !! "_page" = Some p →
  __dict__ (self w) !! "_user" = Some u →
  __dict__ (self w) !! "_rvtoken" = Some tok →
  page_title E (trace w) p = inr ptitle →
  user_name E (trace w ++ [ETitle p]) u = inr uname →
  ∃ params,
    rollback E summary bot w =
      (api_call E (trace w ++ [ETitle p; EName u]) (_api (self w)) params,
       World (self w)
             (trace w ++ [ETitle p; EName u; ECall (_api (self w)) params])) ∧
    calls (trace (snd (rollback E summary bot w))) = S (calls (trace w)) ∧
    params !! "title" = Some ptitle ∧
    params !! "user" = Some uname ∧
    params !! "token" = Some tok ∧
    params !! "action" = Some (VStr "rollback") ∧
    params !! "summary" =
      match summary with JNull => None | _ => Some (VJson summary) end ∧
    params !! "markbot" = (if bot then Some (VInt 1) else None).
Proof.
  intros Hp Hu Htok Htitle Hname.
  exists (rollback_params ptitle uname tok summary bot).
  assert (Hrun : rollback E summary bot w =
      (api_call E (trace w ++ [ETitle p; EName u]) (_api (self w))
         (rollback_params ptitle uname tok summary bot),
       World (self w)
         (trace w ++ [ETitle p; EName u;
                      ECall (_api (self w))
                        (rollback_params ptitle uname tok summary bot)]))).
  { destruct w as [s t]. cbn [self trace] in *.
    unfold rollback, page, user, rvtoken.
    erewrite bind_ok by (by apply decorate_cached).
    erewrite bind_ok by (unfold title, perform; cbn [self trace];
                         by rewrite Htitle).
    erewrite bind_ok by (by apply decorate_cached).
    erewrite bind_ok by (unfold name, perform; cbn [self trace];
                         by rewrite Hname).
    erewrite bind_ok by (by apply decorate_cached).
    cbv zeta.
    erewrite bind_ok; cycle 1.
    { unfold try_except. erewrite bind_ok by (by apply decorate_cached).
      reflexivity. }
    unfold bind, get_self, call, perform, rollback_params. cbn [self trace].
    rewrite <- !app_assoc. cbn [app].
    by destruct summary, bot. }
  split; [exact Hrun|]. split.
  - rewrite Hrun. cbn [snd trace]. rewrite calls_app. unfold calls at 2.
    simpl. lia.
  - apply rollback_params_lookup.
Qed.

(** The handler of the [try] statement in [rollback] is never run: the token
    was already read, outside the [try], when the dictionary display was
    evaluated, and a second read of a cached field cannot raise. *)
Lemma rollback_handler_unreachable E summary bot w :
  rollback E summary bot w = rollback_without_try E summary bot w.
Proof.
  unfold rollback, rollback_without_try.
  apply bind_cong; intros p w1 _. apply bind_cong; intros pt w2 _.
  apply bind_cong; intros u w3 _. apply bind_cong; intros un w4 _.
  apply bind_cong; intros tok w5 Htok. cbv zeta.
  assert (Hc : rvtoken E w5 = (inr tok, w5)).
  { apply decorate_cached.
    pose proof (decorate_ok E "_rvtoken" w4 tok) as H.
    unfold rvtoken in Htok. rewrite Htok in H. by apply H. }
  erewrite bind_ok; [reflexivity|].
  unfold try_except. by erewrite bind_ok by exact Hc.
Qed.

(** C1: revision 7, loaded from a record that carries no rollback token,
    does not raise [PermissionsError] on [rollback]: the token is read in
    the dictionary display, the accessor reloads, finds no token again and
    raises [NonexistentRevisionError] "Revision 7 does not exist"; the same
    happens when the revision was never loaded.  No mutating call is
    issued. *)
Theorem rollback_without_token_raises_nonexistent :
  fst (load_attributes transport_without_token JNull rev7) = inr tt ∧
  __dict__ (self rev7_without_token) !! "_rvtoken" = None ∧
  fst (rollback transport_without_token (JStr "") false rev7_without_token) =
    inl (NonexistentRevisionError "Revision 7 does not exist") ∧
  fst (rollback transport_without_token (JStr "") false rev7_without_token) ≠
    inl (PermissionsError no_rollback_permission) ∧
  calls (trace (snd (rollback transport_without_token (JStr "") false
                       rev7_without_token))) = 0%nat ∧
  fst (rollback transport_without_token (JStr "") false rev7) =
    inl (NonexistentRevisionError "Revision 7 does not exist") ∧
  calls (trace (snd (rollback transport_without_token (JStr "") false
                       rev7))) = 0%nat.
Proof. vm_compute. split_and!; done. Qed.

(** ** Nonexistent revisions *)

(** When the query itself raises, the load raises the same exception and the
    object is untouched. *)
Lemma load_query_fails E res w e :
  decoded E res w = inl e →
  load_attributes E res w =
    (inl e, World (self w) (trace w ++ load_query res w)).
Proof.
  unfold decoded, load_query. destruct w as [[a i d] t].
  destruct (truthy res) eqn:Hr; [done|]. cbn [self trace _api _revid].
  intros H. run. rewrite Hr. run. by rewrite H.
Qed.

(** An access to a field that is not cached passes on whatever the query
    raises; the error of [decorate] is not involved. *)
Lemma access_passes_on_query_failure E n w e :
  getattr (self w) n = None →
  decoded E JNull w = inl e →
  decorate E n w = (inl e, World (self w) (trace w ++ load_query JNull w)).
Proof.
  intros Hn Hd. rewrite (decorate_uncached E n w Hn).
  by rewrite (load_query_fails E JNull w e Hd).
Qed.

(** C4: for revision 999, which matches nothing on the server, the
    properties do not raise [NonexistentRevisionError].  When the query
    answers with an empty list of revisions, [summary], [content] and
    [page] raise [IndexError] from within the load, [revid] returns 999, and
    once [summary] has failed [page] returns the page object the failed load
    left behind; when the query yields no record at all, the properties
    raise [StopIteration]. *)
Theorem nonexistent_revision_raises_load_error :
  fst (summary transport_no_revisions rev999) = inl IndexError ∧
  fst (content transport_no_revisions rev999) = inl IndexError ∧
  fst (page transport_no_revisions rev999) = inl IndexError ∧
  fst (revid transport_no_revisions rev999) = inr (VInt 999) ∧
  fst (page transport_no_revisions
         (snd (summary transport_no_revisions rev999))) = inr (VObj 1) ∧
  fst (summary transport_empty rev999) = inl StopIteration ∧
  fst (page transport_empty rev999) = inl StopIteration.
Proof. vm_compute. split_and!; done. Qed.

(** ** Restore *)




(** ** Partial loads *)

(** C3, as the code has it: a load that succeeds has set all of page, summary,
    timestamp, user, is_minor, prev_revision and is_deleted.  A load that
    fails has performed an initial segment, possibly empty and possibly not,
    of the assignments to page, summary, timestamp, user, is_minor and
    rvtoken, in that order, and no other; what it assigned stays on the
    object.  The object is left as it was when the query itself fails. *)
Theorem load_sets_all_or_a_prefix E res w :
  let w' := snd (load_attributes E res w) in
  match fst (load_attributes E res w) with
  | inr _ =>
      Forall (λ n, is_Some (__dict__ (self w') !! n)) loaded_fields
  | inl e =>
      (∃ vs, __dict__ (self w') = assign vs (__dict__ (self w)) ∧
             map fst vs `prefix_of` load_order) ∧
      (decoded E res w = inl e → self w' = self w)
  end.
Proof.
  intros w'. destruct (fst (load_attributes E res w)) as [e|[]] eqn:Hr.
  - split.
    + destruct (load_any E res w) as (d' & evs & Hw & _ & Hfail).
      subst w'. rewrite Hw. cbn [self __dict__]. by apply (Hfail e).
    + intros Hd. subst w'. by rewrite (load_query_fails _ _ _ _ Hd).
  - apply Forall_forall. intros n Hn.
    pose proof (loaded_fields_cached E res w n Hr Hn) as Hc.
    rewrite getattr_dict in Hc; [done|].
    unfold loaded_fields in Hn.
    repeat (apply elem_of_cons in Hn as [-> | Hn]; [reflexivity|]).
    by apply elem_of_nil in Hn.
Qed.

(** C3 as stated fails: the load of a revision whose author is suppressed
    raises [KeyError] on "user" after page, summary and timestamp have been
    assigned; the object was unloaded before, and afterwards [page] and
    [summary] are read from the cache while user and is_deleted are missing. *)
Lemma failed_load_leaves_partial_state :
  __dict__ (self rev7) = ∅ ∧
  fst (load_attributes transport_user_hidden JNull rev7) =
    inl (KeyError "user") ∧
  page transport_user_hidden rev7_user_hidden =
    (inr (VObj 1), rev7_user_hidden) ∧
  summary transport_user_hidden rev7_user_hidden =
    (inr (VStr "fix typo"), rev7_user_hidden) ∧
  __dict__ (self rev7_user_hidden) !! "_user" = None ∧
  __dict__ (self rev7_user_hidden) !! "_is_deleted" = None.
Proof. vm_compute. split_and!; done. Qed.

(** ** Deleted revisions *)



(** * Concrete instances *)

(** Equality on revision 7: a loaded and an unloaded object for the same
    handle and id are equal; another id or another handle makes them
    unequal. *)
Example equality_examples :
  fst (Revision___eq__ transport_with_text (VRev (Revision___init__ 0 7))
         rev7_loaded) = inr true ∧
  fst (Revision___eq__ transport_with_text (VRev (Revision___init__ 0 8))
         rev7_loaded) = inr false ∧
  fst (Revision___eq__ transport_with_text (VRev (Revision___init__ 1 7))
         rev7_loaded) = inr false ∧
  fst (Revision___ne__ transport_with_text (VRev (Revision___init__ 1 7))
         rev7_loaded) = inr true.
Proof. vm_compute. split_and!; done. Qed.

(** The rollback request of the specification's example: token "TOK", page
    "Foo", user "Bar", summary "undo", bot edit. *)
Lemma rollback_request_witness :
  __dict__ (self rev7_loaded) !! "_page" = Some (VObj 1) ∧
  __dict__ (self rev7_loaded) !! "_user" = Some (VObj 2) ∧
  __dict__ (self rev7_loaded) !! "_rvtoken" = Some (VStr "TOK") ∧
  page_title transport_with_text (trace rev7_loaded) (VObj 1) =
    inr (VStr "Foo") ∧
  user_name transport_with_text (trace rev7_loaded ++ [ETitle (VObj 1)])
    (VObj 2) = inr (VStr "Bar") ∧
  ∃ params,
    rollback transport_with_text (JStr "undo") true rev7_loaded =
      (api_call transport_with_text
         (trace rev7_loaded ++ [ETitle (VObj 1); EName (VObj 2)])
         (_api (self rev7_loaded)) params,
       World (self rev7_loaded)
             (trace rev7_loaded ++
                [ETitle (VObj 1); EName (VObj 2);
                 ECall (_api (self rev7_loaded)) params])) ∧
    calls (trace (snd (rollback transport_with_text (JStr "undo") true
                         rev7_loaded))) = S (calls (trace rev7_loaded)) ∧
    params !! "title" = Some (VStr "Foo") ∧
    params !! "user" = Some (VStr "Bar") ∧
    params !! "token" = Some (VStr "TOK") ∧
    params !! "action" = Some (VStr "rollback") ∧
    params !! "summary" = Some (VStr "undo") ∧
    params !! "markbot" = Some (VInt 1).
Proof.
  assert (H1 : __dict__ (self rev7_loaded) !! "_page" = Some (VObj 1))
    by (vm_compute; reflexivity).
  assert (H2 : __dict__ (self rev7_loaded) !! "_user" = Some (VObj 2))
    by (vm_compute; reflexivity).
  assert (H3 : __dict__ (self rev7_loaded) !! "_rvtoken" = Some (VStr "TOK"))
    by (vm_compute; reflexivity).
  assert (H4 : page_title transport_with_text (trace rev7_loaded) (VObj 1) =
               inr (VStr "Foo")) by reflexivity.
  assert (H5 : user_name transport_with_text
                 (trace rev7_loaded ++ [ETitle (VObj 1)]) (VObj 2) =
               inr (VStr "Bar")) by reflexivity.
  split_and!; try assumption.
  exact (rollback_request transport_with_text rev7_loaded (VObj 1) (VObj 2)
           (VStr "TOK") (VStr "Foo") (VStr "Bar") (JStr "undo") true
           H1 H2 H3 H4 H5).
Defined.


(** One query for the load of revision 7, none for five reads afterwards. *)
Lemma one_query_then_cached_witness :
  queries (trace rev7_loaded) = 1%nat ∧
  fst (load_attributes transport_with_text JNull rev7) = inr tt ∧
  ∃ vs,
    accesses transport_with_text
      ["_page"; "_is_deleted"; "_page"; "_content"; "_summary"] rev7_loaded =
      (inr vs, rev7_loaded) ∧
    length vs = 5%nat.
Proof.
  destruct (one_query_then_cached transport_with_text rev7) as [Hq [Hacc _]].
  assert (H1 : fst (load_attributes transport_with_text JNull rev7) = inr tt)
    by (vm_compute; reflexivity).
  split_and!; [exact Hq | exact H1 |].
  apply (Hacc H1 ["_page"; "_is_deleted"; "_page"; "_content"; "_summary"]).
  repeat (constructor; [right; eexists; vm_compute; reflexivity|]).
  constructor.
Defined.


(** The failed load of the revision with a suppressed author, as an initial
    segment of the assignments on the unloaded object. *)
Lemma load_sets_all_or_a_prefix_witness :
  fst (load_attributes transport_user_hidden JNull rev7) =
    inl (KeyError "user") ∧
  ∃ vs, __dict__ (self rev7_user_hidden) = assign vs (__dict__ (self rev7)) ∧
        map fst vs `prefix_of` load_order.
Proof.
  assert (H1 : fst (load_attributes transport_user_hidden JNull rev7) =
               inl (KeyError "user")) by (vm_compute; reflexivity).
  split; [exact H1|].
  pose proof (load_sets_all_or_a_prefix transport_user_hidden JNull rev7)
    as H.
  cbv zeta in H. rewrite H1 in H. exact (proj1 H).
Defined.


(** An empty mapping supplied as the response is ignored and the transport
    is queried, exactly as when no response is supplied. *)
Lemma falsy_response_is_ignored_witness :
  load_attributes transport_with_text (JDict ∅) rev7 =
    load_attributes transport_with_text JNull rev7 ∧
  queries (trace (snd (load_attributes transport_with_text (JDict ∅) rev7))) =
    1%nat.
Proof.
  exact (falsy_response_is_ignored transport_with_text (JDict ∅) rev7).
Defined.

(** * Further properties of the class *)

Lemma rollback_params_dom ptitle uname tok summary bot :
  dom (rollback_params ptitle uname tok summary bot) =
    rollback_keys summary bot.
Proof.
  unfold rollback_params, rollback_keys.
  destruct summary, bot; cbn zeta; rewrite !dom_insert_L, dom_empty_L;
    set_solver.
Qed.

Lemma perform_run {A} ev (f : list event → exn + A) w :
  perform ev f w = (f (trace w), World (self w) (trace w ++ [ev])).
Proof. done. Qed.

Ltac count1 f :=
  repeat match goal with
         | |- context [f [?e]] =>
             let v := eval vm_compute in (f [e]) in change (f [e]) with v
         end.

Ltac count :=
  rewrite ?calls_app, ?edits_app, ?queries_app;
  count1 calls; count1 edits; count1 queries.

(** In every state, [rollback] edits no page and issues at most one mutating
    call, always as its last event, after at most three queries; when it
    issues none it raises; when it issues one, the call goes to the object's
    own client handle, its outcome is the result, its "token" is the rollback
    token cached on the object, its "action" is "rollback", and its keys are
    exactly title, user, token and action, plus summary unless the summary
    is [None], plus markbot when [bot] is set. *)
Theorem rollback_sends_at_most_one_request E summary bot w :
  let out := rollback E summary bot w in
  ∃ evs,
    trace (snd out) = trace w ++ evs ∧
    edits evs = 0%nat ∧ (calls evs ≤ 1)%nat ∧ (queries evs ≤ 3)%nat ∧
    (calls evs = 0%nat → ∃ e, fst out = inl e) ∧
    (calls evs = 1%nat →
     ∃ evs0 params tok,
       evs = evs0 ++ [ECall (_api (self w)) params] ∧
       fst out = api_call E (trace w ++ evs0) (_api (self w)) params ∧
       getattr (self (snd out)) "_rvtoken" = Some tok ∧
       params !! "token" = Some tok ∧
       params !! "action" = Some (VStr "rollback") ∧
       dom params = rollback_keys summary bot).
Proof.
  intros out. subst out. rewrite rollback_handler_unreachable.
  unfold rollback_without_try.
  destruct (decorate_events E "_page" w)
    as (d1 & evs1 & Hw1 & Hq1 & Hc1 & He1).
  destruct (page E w) as [[e|p] w1] eqn:Hp; unfold page in Hp;
    rewrite Hp in Hw1; cbn [snd] in Hw1.
  { erewrite bind_err by exact Hp. exists evs1. cbn [fst snd].
    rewrite Hw1. cbn [trace]. split_and!; try done; try lia; eauto. }
  erewrite bind_ok by exact Hp.
  assert (Ht1 : trace w1 = trace w ++ evs1) by (by rewrite Hw1).
  assert (Ha1 : _api (self w1) = _api (self w)) by (by rewrite Hw1).
  clear Hw1.
  destruct (page_title E (trace w1) p) as [e|pt] eqn:Hpt.
  { erewrite bind_err
      by (unfold title; rewrite perform_run, Hpt; reflexivity).
    exists (evs1 ++ [ETitle p]). cbn [fst snd trace]. rewrite Ht1.
    rewrite <- !app_assoc. count. rewrite Hc1, He1.
    split_and!; try done; try lia; eauto. }
  erewrite bind_ok by (unfold title; rewrite perform_run, Hpt; reflexivity).
  set (w2 := World (self w1) (trace w1 ++ [ETitle p])).
  destruct (decorate_events E "_user" w2)
    as (d3 & evs3 & Hw3 & Hq3 & Hc3 & He3).
  destruct (user E w2) as [[e|u] w3] eqn:Hu; unfold user in Hu;
    rewrite Hu in Hw3; cbn [snd] in Hw3.
  all: assert (Ht3 : trace w3 = trace w ++ evs1 ++ [ETitle p] ++ evs3)
    by (rewrite Hw3; subst w2; cbn [trace]; rewrite Ht1;
        by rewrite <- !app_assoc).
  all: assert (Ha3 : _api (self w3) = _api (self w))
    by (by rewrite Hw3; subst w2; cbn [self _api]).
  all: clear Hw3.
  { erewrite bind_err by exact Hu. exists (evs1 ++ [ETitle p] ++ evs3).
    cbn [fst snd]. rewrite Ht3. count. rewrite Hc1, He1, Hc3, He3.
    split_and!; try done; try lia; eauto. }
  erewrite bind_ok by exact Hu.
  destruct (user_name E (trace w3) u) as [e|un] eqn:Hun.
  { erewrite bind_err
      by (unfold name; rewrite perform_run, Hun; reflexivity).
    exists (evs1 ++ [ETitle p] ++ evs3 ++ [EName u]). cbn [fst snd trace].
    rewrite Ht3. rewrite <- !app_assoc. count. rewrite Hc1, He1, Hc3, He3.
    split_and!; try done; try lia; eauto. }
  erewrite bind_ok by (unfold name; rewrite perform_run, Hun; reflexivity).
  set (w4 := World (self w3) (trace w3 ++ [EName u])).
  destruct (decorate_events E "_rvtoken" w4)
    as (d5 & evs5 & Hw5 & Hq5 & Hc5 & He5).
  pose proof (decorate_ok E "_rvtoken" w4) as Hok.
  destruct (rvtoken E w4) as [[e|tok] w5] eqn:Htok; unfold rvtoken in Htok;
    rewrite Htok in Hw5, Hok; cbn [fst snd] in Hw5, Hok.
  all: assert (Ht5 : trace w5 =
                 trace w ++ evs1 ++ [ETitle p] ++ evs3 ++ [EName u] ++ evs5)
    by (rewrite Hw5; subst w4; cbn [trace]; rewrite Ht3;
        by rewrite <- !app_assoc).
  all: assert (Ha5 : _api (self w5) = _api (self w))
    by (by rewrite Hw5; subst w4; cbn [self _api]).
  all: clear Hw5.
  { erewrite bind_err by exact Htok.
    exists (evs1 ++ [ETitle p] ++ evs3 ++ [EName u] ++ evs5).
    cbn [fst snd]. rewrite Ht5. count.
    rewrite Hc1, He1, Hc3, He3, Hc5, He5.
    split_and!; try done; try lia; eauto. }
  erewrite bind_ok by exact Htok. cbv zeta.
  unfold bind, get_self, call. rewrite perform_run. cbn [fst snd trace self].
  change (if bot then _ else _)
    with (rollback_params pt un tok summary bot).
  exists (evs1 ++ [ETitle p] ++ evs3 ++ [EName u] ++ evs5 ++
            [ECall (_api (self w)) (rollback_params pt un tok summary bot)]).
  rewrite Ht5, Ha5. rewrite <- !app_assoc. count.
  rewrite Hc1, He1, Hc3, He3, Hc5, He5.
  split_and!; try done; try lia.
  intros _.
  exists (evs1 ++ [ETitle p] ++ evs3 ++ [EName u] ++ evs5),
    (rollback_params pt un tok summary bot), tok.
  destruct (rollback_params_lookup pt un tok summary bot)
    as (_ & _ & Ht & Ha & _).
  rewrite <- !app_assoc. split_and!; try done.
  - by apply Hok.
  - apply rollback_params_dom.
Qed.

(** After its query, if any, a load performs nothing, or the resolution of
    the page, or the resolution of the page followed by that of the user,
    both on the object's own client handle; no other event. *)
Lemma load_resolves_page_then_user E res w :
  ∃ evs,
    trace (snd (load_attributes E res w)) =
      trace w ++ load_query res w ++ evs ∧
    (evs = [] ∨
     (∃ pageid, evs = [EPage (_api (self w)) pageid]) ∨
     (∃ pageid uname,
        evs = [EPage (_api (self w)) pageid; EUser (_api (self w)) uname])).
Proof.
  destruct w as [[a i d] t]. unfold load_query.
  run. repeat step.
  all: rewrite <- ?app_assoc; cbn [app].
  all: first
    [ exists []; split; [by rewrite ?app_nil_r | by left]
    | eexists; split; [reflexivity | by left]
    | eexists; split; [reflexivity | right; left; eexists; reflexivity]
    | eexists; split;
        [reflexivity | right; right; do 2 eexists; reflexivity] ].
Qed.

(** Whatever its outcome, a load keeps the client handle and the revision
    id of the object, so that [revid] still returns the id with no I/O; it
    never issues a mutating call or a page edit; and besides its query, if
    any, it only resolves the page and the user: the events after the query
    are none, or one page resolution, or one page resolution followed by one
    user resolution, and nothing else (no title or name read, no call, no
    edit, no second query). *)
Theorem load_keeps_identity_and_never_mutates E res w :
  let w' := snd (load_attributes E res w) in
  _api (self w') = _api (self w) ∧
  _revid (self w') = _revid (self w) ∧
  revid E w' = (inr (VInt (_revid (self w))), w') ∧
  calls (trace w') = calls (trace w) ∧
  edits (trace w') = edits (trace w) ∧
  ∃ evs,
    trace w' = trace w ++ load_query res w ++ evs ∧
    (evs = [] ∨
     (∃ pageid, evs = [EPage (_api (self w)) pageid]) ∨
     (∃ pageid uname,
        evs = [EPage (_api (self w)) pageid; EUser (_api (self w)) uname])).
Proof.
  intros w'. destruct (load_any E res w) as (d' & evs & Hw & Hq & _).
  destruct (load_resolves_page_then_user E res w) as (evs' & Htr & Hshape).
  subst w'. rewrite Hw in Htr |- *.
  cbn [self trace _api _revid] in Htr |- *.
  destruct Hq as (Hq & Hc & He).
  destruct (load_query_quiet res w) as (Hc' & He' & _).
  split_and!; try done.
  - rewrite !calls_app, Hc, Hc'. lia.
  - rewrite !edits_app, He, He'. lia.
  - by exists evs'.
Qed.

(** A successful load resolves the page from the record's [pageid], then
    the user from the revision's [user], and nothing else after the query;
    afterwards [page] and [user] return what the client handle answered,
    [summary] the revision's [comment], and [timestamp] the parsed
    [timestamp], all from the cache. *)
Theorem load_stores_the_record E res w :
  fst (load_attributes E res w) = inr tt →
  let w' := snd (load_attributes E res w) in
  ∃ resp rev pageid comment ts uname p t u,
    decoded E res w = inr resp ∧
    getitem resp "pageid" = inr pageid ∧
    first_revision resp = inr rev ∧
    getitem rev "comment" = inr comment ∧
    getitem rev "timestamp" = inr ts ∧
    getitem rev "user" = inr uname ∧
    api_page E (trace w ++ load_query res w) (_api (self w)) pageid = inr p ∧
    isostrptime E ts = inr t ∧
    api_user E (trace w ++ load_query res w ++ [EPage (_api (self w)) pageid])
      (_api (self w)) uname = inr u ∧
    trace w' = trace w ++ load_query res w ++
                 [EPage (_api (self w)) pageid; EUser (_api (self w)) uname] ∧
    page E w' = (inr p, w') ∧
    summary E w' = (inr (VJson comment), w') ∧
    timestamp E w' = (inr t, w') ∧
    user E w' = (inr u, w').
Proof.
  intros Hok w'.
  destruct (load_ok E res w Hok)
    as (resp & pageid & p & revs & rev & c & ts & t & un & u & m & pid
        & prev & Hd & Hpid & Hp & Hrevs & Hrev0 & Hc & Hts & Ht & Hun & Hu
        & _ & _ & _ & Hw).
  destruct (loaded_dict_lookup p c t u m prev rev (__dict__ (self w)))
    as (H1 & H2 & H3 & H4 & _).
  exists resp, rev, pageid, c, ts, un, p, t, u.
  assert (Hfr : first_revision resp = inr rev).
  { unfold first_revision. by rewrite Hrevs. }
  split_and!; try done.
  - subst w'. by rewrite Hw.
  - apply decorate_cached. subst w'. rewrite Hw. by rewrite getattr_dict.
  - apply decorate_cached. subst w'. rewrite Hw. by rewrite getattr_dict.
  - apply decorate_cached. subst w'. rewrite Hw. by rewrite getattr_dict.
  - apply decorate_cached. subst w'. rewrite Hw. by rewrite getattr_dict.
Qed.

(** After a successful load, [is_minor] tells whether the revision record
    has a key "minor", whatever value the key holds. *)
Theorem is_minor_is_key_presence E res w resp d :
  fst (load_attributes E res w) = inr tt →
  decoded E res w = inr resp →
  first_revision resp = inr (JDict d) →
  let w' := snd (load_attributes E res w) in
  is_minor E w' = (inr (VBool (bool_decide (is_Some (d !! "minor")))), w').
Proof.
  intros Hok Hresp Hrev w'.
  destruct (load_ok E res w Hok)
    as (resp' & pageid & p & revs & rev' & c & ts & t & un & u & m & pid
        & prev & Hd & _ & _ & Hrevs & Hrev0 & _ & _ & _ & _ & _ & Hm & _
        & _ & Hw).
  rewrite Hresp in Hd. injection Hd as <-.
  unfold first_revision in Hrev. rewrite Hrevs, Hrev0 in Hrev.
  injection Hrev as ->. simpl in Hm. injection Hm as <-.
  destruct (loaded_dict_lookup p c t u
              (bool_decide (is_Some (d !! "minor"))) prev (JDict d)
              (__dict__ (self w)))
    as (_ & _ & _ & _ & H5 & _).
  apply decorate_cached. subst w'. rewrite Hw. by rewrite getattr_dict.
Qed.

(** After a successful load, the cached rollback token is the record's
    [rollbacktoken] when it has one; otherwise it is what was cached before
    the load: a token from an earlier load survives a reload that was
    granted none. *)
Theorem rvtoken_is_refreshed_or_kept E res w resp rev :
  fst (load_attributes E res w) = inr tt →
  decoded E res w = inr resp →
  first_revision resp = inr rev →
  let w' := snd (load_attributes E res w) in
  __dict__ (self w') !! "_rvtoken" =
    match getitem rev "rollbacktoken" with
    | inr tok => Some (VJson tok)
    | inl _ => __dict__ (self w) !! "_rvtoken"
    end.
Proof.
  intros Hok Hresp Hrev w'.
  destruct (load_ok E res w Hok)
    as (resp' & pageid & p & revs & rev' & c & ts & t & un & u & m & pid
        & prev & Hd & _ & _ & Hrevs & Hrev0 & _ & _ & _ & _ & _ & _ & _
        & _ & Hw).
  rewrite Hresp in Hd. injection Hd as <-.
  unfold first_revision in Hrev. rewrite Hrevs, Hrev0 in Hrev.
  injection Hrev as ->.
  destruct (loaded_dict_lookup p c t u m prev rev (__dict__ (self w)))
    as (_ & _ & _ & _ & _ & _ & _ & _ & H9).
  subst w'. by rewrite Hw.
Qed.

(** A decoded response that is no mapping, or a mapping without "pageid",
    makes the load raise [TypeError], respectively [KeyError] "pageid",
    before anything is assigned and before the page is resolved. *)
Theorem load_rejects_response_without_pageid E res w resp e :
  decoded E res w = inr resp →
  getitem resp "pageid" = inl e →
  load_attributes E res w =
    (inl e, World (self w) (trace w ++ load_query res w)) ∧
  (e = KeyError "pageid" ∨ e = TypeError).
Proof.
  unfold decoded, load_query. destruct w as [[a i d] t].
  cbn [self trace _api _revid]. intros Hd Hp. split.
  - destruct (truthy res) eqn:Hr.
    + injection Hd as ->. unfold load_attributes, Revision__load.
      cbv beta iota zeta delta [bind lift ret raise get_self self trace].
      rewrite Hr, Hp. by rewrite app_nil_r.
    + unfold load_attributes, Revision__load.
      cbv beta iota zeta delta
        [bind lift ret raise get_self self trace iterator_next perform
         _api _revid].
      rewrite Hr. cbv beta iota. rewrite Hd. cbv beta iota. by rewrite Hp.
  - destruct resp; simpl in Hp; try (injection Hp as <-; by right).
    destruct (d0 !! "pageid"); [done|]. injection Hp as <-. by left.
Qed.

(** A decoded response with a page id but no first revision (no key
    "revisions", an empty list, or something that cannot be indexed) makes
    the load raise the error of that lookup once the page has been resolved
    and assigned: the object is left with [_page] set and nothing else
    touched. *)
Theorem load_without_revision_record E res w resp pageid p e :
  decoded E res w = inr resp →
  getitem resp "pageid" = inr pageid →
  api_page E (trace w ++ load_query res w) (_api (self w)) pageid = inr p →
  first_revision resp = inl e →
  load_attributes E res w =
    (inl e,
     World (mkRevision (_api (self w)) (_revid (self w))
              (<["_page" := p]> (__dict__ (self w))))
           (trace w ++ load_query res w ++ [EPage (_api (self w)) pageid])).
Proof.
  unfold decoded, load_query, first_revision. destruct w as [[a i d] t].
  cbn [self trace _api _revid __dict__]. intros Hd Hpid Hp Hrev.
  unfold load_attributes, Revision__load.
  destruct (truthy res) eqn:Hr.
  - injection Hd as ->.
    cbv beta iota zeta delta
      [bind lift ret raise get_self self trace mk_page perform setattr
       _api _revid __dict__].
    rewrite Hpid. cbv beta iota.
    rewrite app_nil_r in Hp. rewrite Hp. cbv beta iota.
    destruct (getitem resp "revisions") as [e'|revs].
    + by injection Hrev as ->.
    + cbv beta iota. by rewrite Hrev.
  - cbv beta iota zeta delta
      [bind lift ret raise get_self self trace mk_page perform setattr
       iterator_next _api _revid __dict__].
    rewrite Hd. cbv beta iota.
    rewrite Hpid. cbv beta iota. rewrite Hp. cbv beta iota.
    rewrite <- app_assoc.
    destruct (getitem resp "revisions") as [e'|revs].
    + by injection Hrev as ->.
    + cbv beta iota. by rewrite Hrev.
Qed.

(** There is no negative caching: reading a property whose field is not
    cached issues exactly one query, whether the read succeeds or raises. *)
Theorem uncached_access_queries_once E n w :
  getattr (self w) n = None →
  queries (trace (snd (decorate E n w))) = S (queries (trace w)).
Proof.
  intros Hn. rewrite (decorate_uncached E n w Hn).
  pose proof (load_query_count E JNull w) as Hq.
  destruct (load_attributes E JNull w) as [[e|[]] w']; cbn [snd] in *.
  - rewrite Hq. simpl. lia.
  - destruct (getattr (self w') n); cbn [snd]; rewrite Hq; simpl; lia.
Qed.

Lemma eq_run E (a b : Revision) t :
  Revision___eq__ E (VRev b) (World a t) =
    (inr (bool_decide (_api b = _api a) && Z.eqb (_revid b) (_revid a)),
     World a t).
Proof.
  pose proof (decorate_cached E "_revid" (World b t) (VInt (_revid b))
                eq_refl) as Hb.
  pose proof (decorate_cached E "_revid" (World a t) (VInt (_revid a))
                eq_refl) as Ha.
  cbv beta iota delta [Revision___eq__ bind get_self on_object ret revid
                       self trace].
  case_bool_decide; [|done]. by rewrite Hb, Ha.
Qed.

(** [__eq__] is reflexive, symmetric and transitive on Revisions, whatever
    their instance dictionaries hold. *)
Theorem eq_is_an_equivalence E (a b c : Revision) (t : list event) :
  fst (Revision___eq__ E (VRev a) (World a t)) = inr true ∧
  fst (Revision___eq__ E (VRev b) (World a t)) =
    fst (Revision___eq__ E (VRev a) (World b t)) ∧
  (fst (Revision___eq__ E (VRev b) (World a t)) = inr true →
   fst (Revision___eq__ E (VRev c) (World b t)) = inr true →
   fst (Revision___eq__ E (VRev c) (World a t)) = inr true).
Proof.
  rewrite !eq_run. cbn [fst]. split_and!.
  - rewrite bool_decide_eq_true_2 by done. by rewrite Z.eqb_refl.
  - f_equal. rewrite (Z.eqb_sym (_revid b)). f_equal.
    apply bool_decide_ext. naive_solver.
  - intros [= [H1%bool_decide_eq_true H2%Z.eqb_eq]%andb_true_iff]
           [= [H3%bool_decide_eq_true H4%Z.eqb_eq]%andb_true_iff].
    f_equal. apply andb_true_iff. split.
    + apply bool_decide_eq_true. congruence.
    + apply Z.eqb_eq. congruence.
Qed.

Lemma string_length_app (s t : string) :
  String.length (s +:+ t) = (String.length s + String.length t)%nat.
Proof. induction s as [|c s IH]; simpl; [done|]. by rewrite IH. Qed.

Lemma string_app_inj_r (s1 s2 t : string) : s1 +:+ t = s2 +:+ t → s1 = s2.
Proof.
  revert s2. induction s1 as [|c s1 IH]; intros [|c2 s2]; simpl; intros H.
  - done.
  - apply (f_equal String.length) in H. simpl in H.
    rewrite !string_length_app in H. simpl in H. lia.
  - apply (f_equal String.length) in H. simpl in H.
    rewrite !string_length_app in H. simpl in H. lia.
  - injection H as -> H. f_equal. by apply IH.
Qed.

(** [__repr__] needs no load and changes nothing, even on an unloaded
    Revision; and for one client handle, two Revisions with the same
    representation have the same id. *)
Theorem repr_needs_no_load_and_tells_ids_apart E repr_api (a b : Revision)
    (t : list event) :
  (∃ s, Revision___repr__ E repr_api (World a t) = (inr s, World a t)) ∧
  (_api a = _api b →
   fst (Revision___repr__ E repr_api (World a t)) =
     fst (Revision___repr__ E repr_api (World b t)) →
   _revid a = _revid b).
Proof.
  assert (Hrun : ∀ r : Revision,
    Revision___repr__ E repr_api (World r t) =
      (inr ("Revision(api=" +:+ repr_api (_api r) +:+ ", revid=" +:+
            pretty (_revid r) +:+ ")"), World r t)).
  { intros r. unfold Revision___repr__, bind, get_self. cbn [self].
    unfold revid.
    by rewrite (decorate_cached E "_revid" (World r t) (VInt (_revid r))
                  eq_refl). }
  split.
  - rewrite Hrun. eauto.
  - intros Hapi. rewrite !Hrun. cbn [fst]. rewrite Hapi. intros [= H].
    do 3 apply String.app_inj in H.
    apply string_app_inj_r in H. by apply (inj pretty) in H.
Qed.

(** Loading twice from the same supplied response gives, for every field
    computed from the record alone, the same value the second time as the
    first. *)
Theorem reload_from_same_response_is_idempotent E res w n :
  truthy res = true →
  fst (load_attributes E res w) = inr tt →
  fst (load_attributes E res (snd (load_attributes E res w))) = inr tt →
  n ∈ data_fields →
  __dict__ (self (snd (load_attributes E res
                         (snd (load_attributes E res w))))) !! n =
  __dict__ (self (snd (load_attributes E res w))) !! n.
Proof.
  intros Hr Hok1 Hok2 Hn.
  destruct (load_ok E res w Hok1)
    as (resp & pageid & p & revs & rev & c & ts & t & un & u & m & pid
        & prev & Hd & _ & _ & Hrevs & Hrev0 & Hc & Hts & Ht & _ & _
        & Hm & Hpid & Hprev & Hw).
  destruct (load_attributes E res w) as [r1 w1]. cbn [fst snd] in *.
  subst w1.
  destruct (load_ok E res _ Hok2)
    as (resp2 & pageid2 & p2 & revs2 & rev2 & c2 & ts2 & t2 & un2 & u2 & m2
        & pid2 & prev2 & Hd2 & _ & _ & Hrevs2 & Hrev02 & Hc2 & Hts2 & Ht2
        & _ & _ & Hm2 & Hpid2 & Hprev2 & Hw2).
  unfold decoded in Hd, Hd2. rewrite Hr in Hd, Hd2.
  injection Hd as <-. injection Hd2 as <-.
  rewrite Hrevs in Hrevs2. injection Hrevs2 as <-.
  rewrite Hrev0 in Hrev02. injection Hrev02 as <-.
  rewrite Hc in Hc2. injection Hc2 as <-.
  rewrite Hts in Hts2. injection Hts2 as <-.
  rewrite Ht in Ht2. injection Ht2 as <-.
  rewrite Hm in Hm2. injection Hm2 as <-.
  rewrite Hpid in Hpid2. injection Hpid2 as <-.
  cbn [self _api] in Hprev2.
  rewrite Hprev in Hprev2. injection Hprev2 as <-.
  rewrite Hw2. cbn [self __dict__].
  destruct (loaded_dict_lookup p2 c t u2 m prev rev
              (loaded_dict p c t u m prev rev (__dict__ (self w))))
    as (_ & A2 & A3 & _ & A5 & A6 & A7 & A8 & A9).
  destruct (loaded_dict_lookup p c t u m prev rev (__dict__ (self w)))
    as (_ & B2 & B3 & _ & B5 & B6 & B7 & B8 & B9).
  unfold data_fields in Hn.
  repeat (apply elem_of_cons in Hn as [-> | Hn];
          [first [ congruence
                 | rewrite ?A8, ?A9, ?B8, ?B9;
                   by destruct (getitem rev "rollbacktoken"),
                               (getitem rev "*") ]|]).
  by apply elem_of_nil in Hn.
Qed.

(** After a successful load from a record with text, [restore] submits
    exactly that text to the page the load resolved, as its only event, and
    returns the outcome of that edit. *)
Theorem restore_after_load_submits_the_text E res w resp rev text
    summary minor bot force :
  fst (load_attributes E res w) = inr tt →
  decoded E res w = inr resp →
  first_revision resp = inr rev →
  getitem rev "*" = inr text →
  let w' := snd (load_attributes E res w) in
  ∃ p,
    __dict__ (self w') !! "_page" = Some p ∧
    restore E summary minor bot force w' =
      (page_edit E (trace w') p (VJson text) summary minor bot force,
       World (self w')
             (trace w' ++ [EEdit p (VJson text) summary minor bot force])).
Proof.
  intros Hok Hresp Hrev Htext w'.
  destruct (load_ok E res w Hok)
    as (resp' & pageid & p & revs & rev' & c & ts & t & un & u & m & pid
        & prev & Hd & _ & _ & Hrevs & Hrev0 & _ & _ & _ & _ & _ & _ & _
        & _ & Hw).
  rewrite Hresp in Hd. injection Hd as <-.
  unfold first_revision in Hrev. rewrite Hrevs, Hrev0 in Hrev.
  injection Hrev as ->.
  destruct (loaded_dict_lookup p c t u m prev rev (__dict__ (self w)))
    as (H1 & _ & _ & _ & _ & _ & _ & H8 & _).
  rewrite Htext in H8.
  assert (Hp : __dict__ (self w') !! "_page" = Some p)
    by (subst w'; by rewrite Hw).
  assert (Hc : __dict__ (self w') !! "_content" = Some (VJson text))
    by (subst w'; by rewrite Hw).
  exists p. split; [done|]. unfold restore.
  erewrite bind_ok by (by apply decorate_cached).
  erewrite bind_ok by (by apply decorate_cached).
  reflexivity.
Qed.

Lemma assign_keeps (vs : list (string * val)) (d : gmap string val) k :
  is_Some (d !! k) → is_Some (assign vs d !! k).
Proof.
  unfold assign. revert d. induction vs as [|[k' v] vs IH]; intros d Hk.
  - done.
  - simpl. apply IH. apply lookup_insert_is_Some.
    destruct (decide (k' = k)); auto.
Qed.

Lemma set_opt_keeps name o (d : gmap string val) k :
  is_Some (d !! k) → is_Some (set_opt name o d !! k).
Proof.
  intros Hk. unfold set_opt. destruct o; [done|].
  apply lookup_insert_is_Some. destruct (decide (name = k)); auto.
Qed.

Lemma insert_keeps name v (d : gmap string val) k :
  is_Some (d !! k) → is_Some (<[name := v]> d !! k).
Proof.
  intros Hk. apply lookup_insert_is_Some. destruct (decide (name = k)); auto.
Qed.

(** A load never removes an attribute: a field that was cached before the
    load is still cached after it, whether the load succeeds or fails. *)
Theorem load_never_unsets_a_field E res w k :
  is_Some (__dict__ (self w) !! k) →
  is_Some (__dict__ (self (snd (load_attributes E res w))) !! k).
Proof.
  intros Hk. destruct (fst (load_attributes E res w)) as [e|[]] eqn:Hr.
  - destruct (load_any E res w) as (d' & evs & Hw & _ & Hfail).
    destruct (Hfail e Hr) as (vs & -> & _). rewrite Hw. cbn [self __dict__].
    by apply assign_keeps.
  - destruct (load_ok E res w Hr)
      as (resp & pageid & p & revs & rev & c & ts & t & un & u & m & pid
          & prev & _ & _ & _ & _ & _ & _ & _ & _ & _ & _ & _ & _ & _ & Hw).
    rewrite Hw. cbn [self __dict__]. unfold loaded_dict.
    repeat first [apply insert_keeps | apply set_opt_keeps]. done.
Qed.

(** ** Concrete instances *)

(** The load of revision 7 resolves page 12 and user "Bar". *)
Lemma load_stores_the_record_witness :
  fst (load_attributes transport_with_text JNull rev7) = inr tt ∧
  ∃ resp rev pageid comment ts uname p t u,
    decoded transport_with_text JNull rev7 = inr resp ∧
    getitem resp "pageid" = inr pageid ∧
    first_revision resp = inr rev ∧
    getitem rev "comment" = inr comment ∧
    getitem rev "timestamp" = inr ts ∧
    getitem rev "user" = inr uname ∧
    api_page transport_with_text (trace rev7 ++ load_query JNull rev7)
      (_api (self rev7)) pageid = inr p ∧
    isostrptime transport_with_text ts = inr t ∧
    api_user transport_with_text
      (trace rev7 ++ load_query JNull rev7 ++
         [EPage (_api (self rev7)) pageid])
      (_api (self rev7)) uname = inr u ∧
    trace rev7_loaded =
      trace rev7 ++ load_query JNull rev7 ++
        [EPage (_api (self rev7)) pageid; EUser (_api (self rev7)) uname] ∧
    page transport_with_text rev7_loaded = (inr p, rev7_loaded) ∧
    summary transport_with_text rev7_loaded =
      (inr (VJson comment), rev7_loaded) ∧
    timestamp transport_with_text rev7_loaded = (inr t, rev7_loaded) ∧
    user transport_with_text rev7_loaded = (inr u, rev7_loaded).
Proof.
  assert (H1 : fst (load_attributes transport_with_text JNull rev7) = inr tt)
    by (vm_compute; reflexivity).
  split; [exact H1|].
  exact (load_stores_the_record transport_with_text JNull rev7 H1).
Defined.

(** A minor edit is flagged by an empty string under "minor". *)
Lemma is_minor_is_key_presence_witness :
  fst (load_attributes transport_minor_flag JNull rev7) = inr tt ∧
  decoded transport_minor_flag JNull rev7 = inr record_minor_flag ∧
  first_revision record_minor_flag =
    inr (JDict (<["minor" := JStr ""]>
                  (revision_record (JInt 4) None (Some (JStr "text"))))) ∧
  is_minor transport_minor_flag
    (snd (load_attributes transport_minor_flag JNull rev7)) =
    (inr (VBool true), snd (load_attributes transport_minor_flag JNull rev7)).
Proof.
  assert (H1 : fst (load_attributes transport_minor_flag JNull rev7) = inr tt)
    by (vm_compute; reflexivity).
  assert (H2 : decoded transport_minor_flag JNull rev7 =
               inr record_minor_flag) by reflexivity.
  assert (H3 : first_revision record_minor_flag =
    inr (JDict (<["minor" := JStr ""]>
                  (revision_record (JInt 4) None (Some (JStr "text"))))))
    by (vm_compute; reflexivity).
  refine (conj H1 (conj H2 (conj H3 (_)))).
  exact (is_minor_is_key_presence transport_minor_flag JNull rev7 _ _
           H1 H2 H3).
Defined.

(** The token "TOK" survives a reload from a record without token. *)
Lemma rvtoken_is_refreshed_or_kept_witness :
  fst (load_attributes transport_with_text record_without_token rev7_loaded) =
    inr tt ∧
  decoded transport_with_text record_without_token rev7_loaded =
    inr record_without_token ∧
  first_revision record_without_token =
    inr (JDict (revision_record (JInt 4) None (Some (JStr "text")))) ∧
  __dict__ (self (snd (load_attributes transport_with_text
                         record_without_token rev7_loaded))) !! "_rvtoken" =
    Some (VStr "TOK").
Proof.
  assert (H1 : fst (load_attributes transport_with_text record_without_token
                      rev7_loaded) = inr tt) by (vm_compute; reflexivity).
  assert (H2 : decoded transport_with_text record_without_token rev7_loaded =
               inr record_without_token) by reflexivity.
  assert (H3 : first_revision record_without_token =
    inr (JDict (revision_record (JInt 4) None (Some (JStr "text")))))
    by (vm_compute; reflexivity).
  refine (conj H1 (conj H2 (conj H3 (_)))).
  exact (rvtoken_is_refreshed_or_kept transport_with_text
           record_without_token rev7_loaded _ _ H1 H2 H3).
Defined.

(** A supplied mapping without "pageid" is rejected at once. *)
Lemma load_rejects_response_without_pageid_witness :
  decoded transport_with_text response_without_pageid rev7 =
    inr response_without_pageid ∧
  getitem response_without_pageid "pageid" = inl (KeyError "pageid") ∧
  load_attributes transport_with_text response_without_pageid rev7 =
    (inl (KeyError "pageid"),
     World (self rev7) (trace rev7 ++ load_query response_without_pageid rev7)).
Proof.
  assert (H1 : decoded transport_with_text response_without_pageid rev7 =
               inr response_without_pageid) by reflexivity.
  assert (H2 : getitem response_without_pageid "pageid" =
               inl (KeyError "pageid")) by reflexivity.
  refine (conj H1 (conj H2 (_))).
  exact (proj1 (load_rejects_response_without_pageid transport_with_text
                  response_without_pageid rev7 _ _ H1 H2)).
Defined.

(** Revision 999: the page is assigned, then the load raises. *)
Lemma load_without_revision_record_witness :
  decoded transport_no_revisions JNull rev999 = inr record_no_revisions ∧
  getitem record_no_revisions "pageid" = inr (JInt 12) ∧
  api_page transport_no_revisions (trace rev999 ++ load_query JNull rev999)
    (_api (self rev999)) (JInt 12) = inr (VObj 1) ∧
  first_revision record_no_revisions = inl IndexError ∧
  load_attributes transport_no_revisions JNull rev999 =
    (inl IndexError,
     World (mkRevision (_api (self rev999)) (_revid (self rev999))
              (<["_page" := VObj 1]> (__dict__ (self rev999))))
           (trace rev999 ++ load_query JNull rev999 ++
              [EPage (_api (self rev999)) (JInt 12)])).
Proof.
  assert (H1 : decoded transport_no_revisions JNull rev999 =
               inr record_no_revisions) by reflexivity.
  assert (H2 : getitem record_no_revisions "pageid" = inr (JInt 12))
    by (vm_compute; reflexivity).
  assert (H3 : api_page transport_no_revisions
                 (trace rev999 ++ load_query JNull rev999)
                 (_api (self rev999)) (JInt 12) = inr (VObj 1))
    by reflexivity.
  assert (H4 : first_revision record_no_revisions = inl IndexError)
    by (vm_compute; reflexivity).
  refine (conj H1 (conj H2 (conj H3 (conj H4 (_))))).
  exact (load_without_revision_record transport_no_revisions JNull rev999
           _ _ _ _ H1 H2 H3 H4).
Defined.

(** Reading the token that was withheld queries a second time. *)
Lemma uncached_access_queries_once_witness :
  getattr (self rev7_without_token) "_rvtoken" = None ∧
  queries (trace (snd (rvtoken transport_without_token rev7_without_token))) =
    2%nat.
Proof.
  assert (H1 : getattr (self rev7_without_token) "_rvtoken" = None)
    by (vm_compute; reflexivity).
  split; [exact H1|].
  exact (uncached_access_queries_once transport_without_token "_rvtoken"
           rev7_without_token H1).
Defined.

(** Loaded, unloaded and reloaded objects for revision 7 are all equal. *)
Lemma eq_is_an_equivalence_witness :
  fst (Revision___eq__ transport_with_text (VRev (Revision___init__ 0 7))
         (World (self rev7_loaded) [])) = inr true ∧
  fst (Revision___eq__ transport_with_text (VRev (self rev7_reloaded))
         (World (Revision___init__ 0 7) [])) = inr true ∧
  fst (Revision___eq__ transport_with_text (VRev (self rev7_reloaded))
         (World (self rev7_loaded) [])) = inr true.
Proof.
  assert (H1 : fst (Revision___eq__ transport_with_text
                      (VRev (Revision___init__ 0 7))
                      (World (self rev7_loaded) [])) = inr true)
    by (vm_compute; reflexivity).
  assert (H2 : fst (Revision___eq__ transport_with_text
                      (VRev (self rev7_reloaded))
                      (World (Revision___init__ 0 7) [])) = inr true)
    by (vm_compute; reflexivity).
  refine (conj H1 (conj H2 (_))).
  exact (proj2 (proj2 (eq_is_an_equivalence transport_with_text
                         (self rev7_loaded) (Revision___init__ 0 7)
                         (self rev7_reloaded) [])) H1 H2).
Defined.

(** The loaded and the unloaded revision 7 print alike. *)
Lemma repr_needs_no_load_and_tells_ids_apart_witness :
  _api (self rev7_loaded) = _api (self rev7) ∧
  fst (Revision___repr__ transport_with_text repr_handle
         (World (self rev7_loaded) [])) =
    fst (Revision___repr__ transport_with_text repr_handle
           (World (self rev7) [])) ∧
  _revid (self rev7_loaded) = _revid (self rev7).
Proof.
  assert (H1 : _api (self rev7_loaded) = _api (self rev7))
    by (vm_compute; reflexivity).
  assert (H2 : fst (Revision___repr__ transport_with_text repr_handle
                      (World (self rev7_loaded) [])) =
               fst (Revision___repr__ transport_with_text repr_handle
                      (World (self rev7) []))) by (vm_compute; reflexivity).
  refine (conj H1 (conj H2 (_))).
  exact (proj2 (repr_needs_no_load_and_tells_ids_apart transport_with_text
                    repr_handle (self rev7_loaded) (self rev7) []) H1 H2).
Defined.

(** Loading the loaded revision 7 twice from the record without text. *)
Lemma reload_from_same_response_is_idempotent_witness :
  truthy record_deleted = true ∧
  fst (load_attributes transport_with_text record_deleted rev7_loaded) =
    inr tt ∧
  fst (load_attributes transport_with_text record_deleted
         (snd (load_attributes transport_with_text record_deleted
                 rev7_loaded))) = inr tt ∧
  "_content" ∈ data_fields ∧
  __dict__ (self (snd (load_attributes transport_with_text record_deleted
                         (snd (load_attributes transport_with_text
                                 record_deleted rev7_loaded))))) !! "_content"
  = __dict__ (self (snd (load_attributes transport_with_text record_deleted
                           rev7_loaded))) !! "_content".
Proof.
  assert (H1 : truthy record_deleted = true) by (vm_compute; reflexivity).
  assert (H2 : fst (load_attributes transport_with_text record_deleted
                      rev7_loaded) = inr tt) by (vm_compute; reflexivity).
  assert (H3 : fst (load_attributes transport_with_text record_deleted
                      (snd (load_attributes transport_with_text record_deleted
                              rev7_loaded))) = inr tt)
    by (vm_compute; reflexivity).
  assert (H4 : "_content" ∈ data_fields)
    by (unfold data_fields; repeat constructor).
  refine (conj H1 (conj H2 (conj H3 (conj H4 (_))))).
  exact (reload_from_same_response_is_idempotent transport_with_text
           record_deleted rev7_loaded "_content" H1 H2 H3 H4).
Defined.

(** Restoring revision 7 submits "text" to page 12. *)
Lemma restore_after_load_submits_the_text_witness :
  fst (load_attributes transport_with_text JNull rev7) = inr tt ∧
  decoded transport_with_text JNull rev7 = inr record_with_text ∧
  first_revision record_with_text =
    inr (JDict (revision_record (JInt 4) (Some (JStr "TOK"))
                  (Some (JStr "text")))) ∧
  getitem (JDict (revision_record (JInt 4) (Some (JStr "TOK"))
                    (Some (JStr "text")))) "*" = inr (JStr "text") ∧
  ∃ p,
    __dict__ (self rev7_loaded) !! "_page" = Some p ∧
    restore transport_with_text (JStr "revert") false true false rev7_loaded =
      (page_edit transport_with_text (trace rev7_loaded) p (VStr "text")
         (JStr "revert") false true false,
       World (self rev7_loaded)
             (trace rev7_loaded ++
                [EEdit p (VStr "text") (JStr "revert") false true false])).
Proof.
  assert (H1 : fst (load_attributes transport_with_text JNull rev7) = inr tt)
    by (vm_compute; reflexivity).
  assert (H2 : decoded transport_with_text JNull rev7 = inr record_with_text)
    by reflexivity.
  assert (H3 : first_revision record_with_text =
               inr (JDict (revision_record (JInt 4) (Some (JStr "TOK"))
                             (Some (JStr "text")))))
    by (vm_compute; reflexivity).
  assert (H4 : getitem (JDict (revision_record (JInt 4) (Some (JStr "TOK"))
                                 (Some (JStr "text")))) "*" =
               inr (JStr "text")) by (vm_compute; reflexivity).
  refine (conj H1 (conj H2 (conj H3 (conj H4 (_))))).
  exact (restore_after_load_submits_the_text transport_with_text JNull rev7
           _ _ _ (JStr "revert") false true false H1 H2 H3 H4).
Defined.

(** The content of revision 7 stays cached across a reload without text. *)
Lemma load_never_unsets_a_field_witness :
  is_Some (__dict__ (self rev7_loaded) !! "_content") ∧
  is_Some (__dict__ (self (snd (load_attributes transport_deleted JNull
                                  rev7_loaded))) !! "_content").
Proof.
  assert (H1 : is_Some (__dict__ (self rev7_loaded) !! "_content"))
    by (eexists; vm_compute; reflexivity).
  split; [exact H1|].
  exact (load_never_unsets_a_field transport_deleted JNull rev7_loaded
           "_content" H1).
Defined.

(** The unloaded revision 7 rolls back with one request, after one query. *)
Lemma rollback_sends_at_most_one_request_witness :
  ∃ evs0 params tok,
    trace (snd (rollback transport_with_text (JStr "undo") true rev7)) =
      evs0 ++ [ECall 0 params] ∧
    fst (rollback transport_with_text (JStr "undo") true rev7) =
      api_call transport_with_text (trace rev7 ++ evs0) 0 params ∧
    params !! "token" = Some tok ∧
    dom params = rollback_keys (JStr "undo") true.
Proof.
  destruct (rollback_sends_at_most_one_request transport_with_text
              (JStr "undo") true rev7)
    as (evs & Htr & _ & _ & _ & _ & Hcall).
  change (trace rev7 ++ evs) with evs in Htr.
  assert (Hc : calls evs = 1%nat) by (rewrite <- Htr; vm_compute; reflexivity).
  destruct (Hcall Hc) as (evs0 & params & tok & Hevs & Hout & _ & Htok & _ & Hdom).
  exists evs0, params, tok. rewrite Htr. split_and!; assumption.
Defined.
